(** * TranslucentTB: the taskbar appearance core of [main.cpp]

    A shallow embedding of the part of [src/TranslucentTB/main.cpp] that
    decides and applies the appearance of every taskbar:

    - [SetWindowBlur]       (lines 65-104)  the dispatcher and its [is_normal] memo;
    - [RefreshHandles]      (lines 208-227) the rebuild of [run.taskbars];
    - [EnumWindowsProcess]  (lines 278-310) the per-window scan callback;
    - [SetTaskbarBlur]      (lines 312-404) the poll cycle: decision pass and dispatch.

    Handles ([HWND], [HMONITOR]) are integers, [std::unordered_map] is a
    [gmap], [uint32_t] and [uint8_t] are [Z] with the wrap-around written
    out, and the native calls a function issues are returned as a list. *)

From Stdlib Require Import ZArith Lia Bool List String Ascii.
From stdpp Require Import base option list gmap fin_maps strings.

Local Open Scope Z_scope.

(** ** Handles *)

Abbreviation HWND := Z (only parsing).
Abbreviation HMONITOR := Z (only parsing).
(** [Window] wraps one [HWND]; two windows are equal when their handles are. *)
Abbreviation Window := Z (only parsing).

Definition NullWindow : Window := 0.

(** [SW_MAXIMIZE] of WinUser.h. *)
Definition SW_MAXIMIZE : Z := 3.

(** ** The configuration ([Config::...]) *)

(** [swca::ACCENT]: the source names two of its values; every other value
    of the enumeration is carried by its number. *)
Inductive ACCENT : Type :=
  | ACCENT_NORMAL
  | ACCENT_ENABLE_FLUENT
  | ACCENT_OTHER (code : Z).

#[global] Instance ACCENT_eq_dec : EqDecision ACCENT.
Proof. solve_decision. Defined.

(** [Config::TASKBAR_APPEARANCE]. *)
Record TASKBAR_APPEARANCE : Type := {
  ACCENT_of : ACCENT;
  COLOR : Z;
}.

(** The registry stores [const Config::TASKBAR_APPEARANCE *]: a pointer to
    one of five distinct static objects.  The pointer is modelled by the
    name of the object it points to. *)
Inductive APPEARANCE : Type :=
  | REGULAR_APPEARANCE
  | MAXIMISED_APPEARANCE
  | START_APPEARANCE
  | CORTANA_APPEARANCE
  | TIMELINE_APPEARANCE.

#[global] Instance APPEARANCE_eq_dec : EqDecision APPEARANCE.
Proof. solve_decision. Defined.

(** [Config::PEEK]. *)
Inductive PEEK_MODE : Type := Disabled | Enabled | Dynamic.

#[global] Instance PEEK_MODE_eq_dec : EqDecision PEEK_MODE.
Proof. solve_decision. Defined.

Record Config : Type := {
  deref : APPEARANCE → TASKBAR_APPEARANCE;
  MAXIMISED_ENABLED : bool;
  MAXIMISED_REGULAR_ON_PEEK : bool;
  PEEK : PEEK_MODE;
  PEEK_ONLY_MAIN : bool;
  CORTANA_ENABLED : bool;
  START_ENABLED : bool;
  TIMELINE_ENABLED : bool;
}.

(** ** The window system

    What the Win32 wrappers ([Window], [Blacklist], [win32], [user32])
    answer during one call.  Their code is not part of [main.cpp]; each
    query is a field here. *)
Record Desktop : Type := {
  visible : Window → bool;
  state : Window → Z;
  (** [get_attribute<BOOL>(DWMWA_CLOAKED)], read as a condition *)
  cloaked : Window → bool;
  IsBlacklisted : Window → bool;
  on_current_desktop : Window → bool;
  monitor : Window → HMONITOR;
  classname : Window → string;
  filename : Window → string;
  (** the windows [EnumWindows] hands to its callback, in order *)
  EnumWindows_order : list Window;
  ForegroundWindow : Window;
  (** [Window::Find(L"Shell_TrayWnd")] *)
  Find_Shell_TrayWnd : Window;
  (** [Window::FindEnum(L"Shell_SecondaryTrayWnd")] *)
  FindEnum_Shell_SecondaryTrayWnd : list Window;
  (** [win32::IsAtLeastBuild(MIN_FLUENT_BUILD)] *)
  timeline_av : bool;
  (** the macro [CORE_WINDOW] *)
  CORE_WINDOW : string;
  (** whether [user32::SetWindowCompositionAttribute] is non-null *)
  SetWindowCompositionAttribute_available : bool;
}.

(** Modelled from the spec: [Util::IgnoreCaseStringEquals] (util.hpp is not
    among the sources); the spec calls the comparison case-insensitive.
    Letters A-Z are folded to a-z, then the strings are compared. *)
Definition fold_case (c : ascii) : ascii :=
  let n := N_of_ascii c in
  if ((65 <=? n) && (n <=? 90))%N then ascii_of_N (n + 32) else c.

Fixpoint IgnoreCaseStringEquals (l r : string) : bool :=
  match l, r with
  | EmptyString, EmptyString => true
  | String a l', String b r' =>
      Ascii.eqb (fold_case a) (fold_case b) && IgnoreCaseStringEquals l' r'
  | _, _ => false
  end.

(** ** Global data (the [run] struct, [hwnd], and the function statics) *)

Record Globals : Type := {
  (** [run.taskbars] *)
  taskbars : gmap Z (Z * APPEARANCE);
  main_taskbar : Window;
  should_show_peek : bool;
  peek_active : bool;
  start_opened : bool;
  (** the global [HWND hwnd] of line 39 *)
  hwnd : HWND;
  (** [static uint8_t counter] of [SetTaskbarBlur] *)
  counter : Z;
  (** [static std::unordered_map<Window, bool> is_normal] of [SetWindowBlur] *)
  is_normal : gmap Z bool;
}.

Definition set_taskbars (g : Globals) (t : gmap Z (Z * APPEARANCE)) : Globals :=
  {| taskbars := t; main_taskbar := main_taskbar g;
     should_show_peek := should_show_peek g; peek_active := peek_active g;
     start_opened := start_opened g; hwnd := hwnd g; counter := counter g;
     is_normal := is_normal g |}.

Definition set_main_taskbar (g : Globals) (w : Window) : Globals :=
  {| taskbars := taskbars g; main_taskbar := w;
     should_show_peek := should_show_peek g; peek_active := peek_active g;
     start_opened := start_opened g; hwnd := hwnd g; counter := counter g;
     is_normal := is_normal g |}.

Definition set_should_show_peek (g : Globals) (b : bool) : Globals :=
  {| taskbars := taskbars g; main_taskbar := main_taskbar g;
     should_show_peek := b; peek_active := peek_active g;
     start_opened := start_opened g; hwnd := hwnd g; counter := counter g;
     is_normal := is_normal g |}.

Definition set_hwnd (g : Globals) (h : HWND) : Globals :=
  {| taskbars := taskbars g; main_taskbar := main_taskbar g;
     should_show_peek := should_show_peek g; peek_active := peek_active g;
     start_opened := start_opened g; hwnd := h; counter := counter g;
     is_normal := is_normal g |}.

Definition set_counter (g : Globals) (c : Z) : Globals :=
  {| taskbars := taskbars g; main_taskbar := main_taskbar g;
     should_show_peek := should_show_peek g; peek_active := peek_active g;
     start_opened := start_opened g; hwnd := hwnd g; counter := c;
     is_normal := is_normal g |}.

Definition set_is_normal (g : Globals) (m : gmap Z bool) : Globals :=
  {| taskbars := taskbars g; main_taskbar := main_taskbar g;
     should_show_peek := should_show_peek g; peek_active := peek_active g;
     start_opened := start_opened g; hwnd := hwnd g; counter := counter g;
     is_normal := m |}.

Definition set_peek_active (g : Globals) (b : bool) : Globals :=
  {| taskbars := taskbars g; main_taskbar := main_taskbar g;
     should_show_peek := should_show_peek g; peek_active := b;
     start_opened := start_opened g; hwnd := hwnd g; counter := counter g;
     is_normal := is_normal g |}.

(** [pair.second = a] *)
Definition set_second (a : APPEARANCE) (p : Window * APPEARANCE) : Window * APPEARANCE :=
  (p.1, a).

(** ** Native calls *)

(** [swca::ACCENTPOLICY], as the aggregate of lines 71-76 fills it. *)
Record ACCENTPOLICY : Type := {
  nAccentState : ACCENT;
  nFlags : Z;
  nColor : Z;
  nAnimationId : Z;
}.

Inductive native_call : Type :=
  (** [window.send_message(WM_THEMECHANGED)] *)
  | send_WM_THEMECHANGED (window : Window)
  (** [user32::SetWindowCompositionAttribute(window, &data)], [data]
      pointing to the policy *)
  | SetWindowCompositionAttribute (window : Window) (policy : ACCENTPOLICY).

(** ** [SetWindowBlur] *)

Definition uint32 (z : Z) : Z := z mod 2 ^ 32.
Definition uint8 (z : Z) : Z := z mod 2 ^ 8.

(** Line 74: the value given to [policy.nColor]. *)
Definition swap_red_blue (color : Z) : Z :=
  uint32 (Z.land color 0xFF00FF00
          + Z.shiftr (Z.land color 0x00FF0000) 16
          + Z.shiftl (Z.land color 0x000000FF) 16).

(** Line 80: [is_normal.count(window) == 0 || !is_normal[window]]. *)
Definition not_known_normal (memo : gmap Z bool) (window : Window) : bool :=
  match memo !! window with
  | None => true
  | Some b => negb b
  end.

Definition SetWindowBlur (os : Desktop) (memo : gmap Z bool)
    (window : Window) (appearance : ACCENT) (color : Z)
    : gmap Z bool * list native_call :=
  if SetWindowCompositionAttribute_available os then
    let policy := {| nAccentState := appearance; nFlags := 2;
                     nColor := swap_red_blue color; nAnimationId := 0 |} in
    match nAccentState policy with
    | ACCENT_NORMAL =>
        if not_known_normal memo window
        then (<[window := true]> memo, [send_WM_THEMECHANGED window])
        else (memo, [])
    | accent =>
        let policy :=
          if bool_decide (accent = ACCENT_ENABLE_FLUENT)
             && (Z.shiftr (nColor policy) 24 =? 0x00)
          then {| nAccentState := nAccentState policy; nFlags := nFlags policy;
                  nColor := uint32 (Z.shiftl 0x01 24 + Z.land (nColor policy) 0x00FFFFFF);
                  nAnimationId := nAnimationId policy |}
          else policy in
        (<[window := false]> memo, [SetWindowCompositionAttribute window policy])
    end
  else (memo, []).

(** ** [RefreshHandles] *)

Definition RefreshHandles (os : Desktop) (g : Globals) : Globals :=
  let g := set_taskbars g ∅ in
  let g := set_main_taskbar g (Find_Shell_TrayWnd os) in
  let g := set_taskbars g
             (<[monitor os (main_taskbar g) := (main_taskbar g, REGULAR_APPEARANCE)]>
                (taskbars g)) in
  foldl (λ g secondtaskbar,
           set_taskbars g
             (<[monitor os secondtaskbar := (secondtaskbar, REGULAR_APPEARANCE)]>
                (taskbars g)))
        g (FindEnum_Shell_SecondaryTrayWnd os).

(** ** [EnumWindowsProcess] *)

(** The condition of lines 285-286, written a second time at lines
    337-338. *)
Definition maximised_on_taskbar_monitor (os : Desktop)
    (t : gmap Z (Z * APPEARANCE)) (window : Window) : bool :=
  visible os window && (state os window =? SW_MAXIMIZE)
  && negb (cloaked os window) && negb (IsBlacklisted os window)
  && on_current_desktop os window
  && bool_decide (is_Some (t !! monitor os window)).

Definition EnumWindowsProcess (cfg : Config) (os : Desktop)
    (g : Globals) (hWnd : HWND) : Globals :=
  let window := hWnd in
  let g := set_hwnd g hWnd in
  if maximised_on_taskbar_monitor os (taskbars g) window then
    let g :=
      if MAXIMISED_ENABLED cfg
      then set_taskbars g
             (alter (set_second MAXIMISED_APPEARANCE) (monitor os window) (taskbars g))
      else g in
    if bool_decide (PEEK cfg = Dynamic) then
      if PEEK_ONLY_MAIN cfg then
        match taskbars g !! monitor os window with
        | Some taskbar =>
            if taskbar.1 =? main_taskbar g then set_should_show_peek g true else g
        | None => g
        end
      else set_should_show_peek g true
    else g
  else g.

(** [EnumWindows(&EnumWindowsProcess, NULL)]: the callback always returns
    [true], so every window is visited. *)
Definition EnumWindows (cfg : Config) (os : Desktop) (g : Globals) : Globals :=
  foldl (EnumWindowsProcess cfg os) g (EnumWindows_order os).

(** ** [SetTaskbarBlur] *)

(** Lines 324-327, 372-375, 385-388: the loops that give every taskbar the
    same appearance. *)
Definition set_all (a : APPEARANCE) (g : Globals) : Globals :=
  set_taskbars g (set_second a <$> taskbars g).

(** [run.taskbars.at(fg_window.monitor()).second = a] *)
Definition set_at (os : Desktop) (fg_window : Window) (a : APPEARANCE)
    (g : Globals) : Globals :=
  set_taskbars g (alter (set_second a) (monitor os fg_window) (taskbars g)).

Definition is_search (title : string) : bool :=
  IgnoreCaseStringEquals title "SearchUI.exe"
  || IgnoreCaseStringEquals title "SearchApp.exe".

(** Lines 333-366.  [window] is the local of line 314, built from the
    global [hwnd] when [SetTaskbarBlur] is entered. *)
Definition foreground_rule (cfg : Config) (os : Desktop) (window : Window)
    (g : Globals) : Globals :=
  let fg_window := ForegroundWindow os in
  if negb (fg_window =? NullWindow)
     && bool_decide (is_Some (taskbars g !! monitor os fg_window)) then
    if maximised_on_taskbar_monitor os (taskbars g) window then
      let g :=
        if CORTANA_ENABLED cfg && negb (start_opened g)
           && negb (cloaked os fg_window) then
          let title := filename os fg_window in
          if is_search title
          then set_at os fg_window MAXIMISED_APPEARANCE g else g
        else
          let title := filename os fg_window in
          if is_search title
          then set_at os fg_window CORTANA_APPEARANCE g else g in
      if START_ENABLED cfg && start_opened g
      then set_at os fg_window MAXIMISED_APPEARANCE g
      else set_at os fg_window START_APPEARANCE g
    else g
  else g.

(** Lines 368-376. *)
Definition peek_rule (cfg : Config) (g : Globals) : Globals :=
  if MAXIMISED_ENABLED cfg && MAXIMISED_REGULAR_ON_PEEK cfg && peek_active g
  then set_all REGULAR_APPEARANCE g
  else g.

(** The condition of lines 381-383. *)
Definition is_timeline (os : Desktop) (fg_window : Window) : bool :=
  if timeline_av os
  then String.eqb (classname os fg_window) (CORE_WINDOW os)
       && IgnoreCaseStringEquals (filename os fg_window) "Explorer.exe"
  else String.eqb (classname os fg_window) "MultitaskingViewFrame".

(** Lines 378-390. *)
Definition timeline_rule (cfg : Config) (os : Desktop) (g : Globals) : Globals :=
  let fg_window := ForegroundWindow os in
  if negb (fg_window =? NullWindow) then
    if TIMELINE_ENABLED cfg && is_timeline os fg_window
    then set_all TIMELINE_APPEARANCE g
    else g
  else g.

(** Lines 322-392: the body of [if (counter >= 10)]. *)
Definition decision_pass (cfg : Config) (os : Desktop) (window : Window)
    (g : Globals) : Globals :=
  let g := set_should_show_peek g (bool_decide (PEEK cfg = Enabled)) in
  let g := set_all REGULAR_APPEARANCE g in
  let g := if MAXIMISED_ENABLED cfg || bool_decide (PEEK cfg = Dynamic)
           then EnumWindows cfg os g else g in
  let g := foreground_rule cfg os window g in
  let g := peek_rule cfg g in
  let g := timeline_rule cfg os g in
  set_counter g 0.

(** Lines 399-403: one [SetWindowBlur] per taskbar, in the map's iteration
    order. *)
Definition apply_all (cfg : Config) (os : Desktop)
    (t : gmap Z (Z * APPEARANCE)) (memo : gmap Z bool)
    : gmap Z bool * list native_call :=
  foldl (λ (acc : gmap Z bool * list native_call) (entry : Z * (Z * APPEARANCE)),
           let pair := entry.2 in
           let appearance := deref cfg pair.2 in
           let r := SetWindowBlur os acc.1 pair.1 (ACCENT_of appearance) (COLOR appearance) in
           (r.1, acc.2 ++ r.2))
        (memo, []) (map_to_list t).

Definition SetTaskbarBlur (cfg : Config) (os : Desktop) (g : Globals)
    : Globals * list native_call :=
  let window := hwnd g in
  let g := if 10 <=? counter g
           then decision_pass cfg os window g
           else set_counter g (uint8 (counter g + 1)) in
  let r := apply_all cfg os (taskbars g) (is_normal g) in
  (set_is_normal g r.1, r.2).

(** The callback of [peek_hook] (lines 514-522). *)
Definition peek_hook (event : Z) (g : Globals) : Globals :=
  set_peek_active g (event =? 0x21).

(** ** Leaving the program ([ExitApp] and the end of [wWinMain]) *)

Inductive EXITREASON : Type :=
  | NewInstance
  | UserAction
  | UserActionNoSave.

#[global] Instance EXITREASON_eq_dec : EqDecision EXITREASON.
Proof. solve_decision. Defined.

(** Lines 600-603: [SetWindowBlur(taskbar.second.first, ACCENT_NORMAL, NULL)]
    for every taskbar of the registry. *)
Definition restore_all (os : Desktop) (t : gmap Z (Z * APPEARANCE))
    (memo : gmap Z bool) : gmap Z bool * list native_call :=
  foldl (λ (acc : gmap Z bool * list native_call) (taskbar : Z * (Z * APPEARANCE)),
           let r := SetWindowBlur os acc.1 taskbar.2.1 ACCENT_NORMAL 0 in
           (r.1, acc.2 ++ r.2))
        (memo, []) (map_to_list t).

(** Lines 591-604, after the worker thread has stopped: whether
    [Config::Save] is called, and what the restoration issues. *)
Definition leave (exit_reason : EXITREASON) (os : Desktop) (g : Globals)
    : bool * (gmap Z bool * list native_call) :=
  if bool_decide (exit_reason ≠ NewInstance) then
    (bool_decide (exit_reason ≠ UserActionNoSave),
     restore_all os (taskbars g) (is_normal g))
  else (false, (is_normal g, [])).

(** ** The autostart menu item ([RefreshAutostartMenu], lines 233-261) *)

Module Autostart.
(** [Autostart::StartupState], with the five values the source names. *)
Inductive StartupState : Type :=
  | Disabled
  | DisabledByUser
  | Enabled
  | DisabledByPolicy
  | EnabledByPolicy.

#[global] Instance StartupState_eq_dec : EqDecision StartupState.
Proof. solve_decision. Defined.
End Autostart.

(** The two uses of [TrayContextMenu::RefreshBool]. *)
Inductive BoolType : Type := ControlsEnabled | Toggle.

Inductive menu_call : Type :=
  (** [TrayContextMenu::RefreshBool(IDM_AUTOSTART, menu, value, type)] *)
  | RefreshBool_IDM_AUTOSTART (value : bool) (type : BoolType)
  (** [TrayContextMenu::ChangeItemText(menu, IDM_AUTOSTART, text)] *)
  | ChangeItemText_IDM_AUTOSTART (text : string).

(** The value of lines 235-237. *)
Definition autostart_controls_enabled (state : Autostart.StartupState) : bool :=
  negb (bool_decide (state = Autostart.DisabledByUser)
        || bool_decide (state = Autostart.DisabledByPolicy)
        || bool_decide (state = Autostart.EnabledByPolicy)).

(** The value of lines 240-241. *)
Definition autostart_toggle (state : Autostart.StartupState) : bool :=
  bool_decide (state = Autostart.Enabled)
  || bool_decide (state = Autostart.EnabledByPolicy).

(** The switch of lines 245-259. *)
Definition autostart_text (state : Autostart.StartupState) : string :=
  match state with
  | Autostart.DisabledByUser => "Startup has been disabled in Task Manager"
  | Autostart.DisabledByPolicy => "Startup has been disabled in Group Policy"
  | Autostart.EnabledByPolicy => "Startup has been enabled in Group Policy"
  | Autostart.Enabled | Autostart.Disabled => "Open at boot"
  end.

Definition RefreshAutostartMenu (state : Autostart.StartupState) : list menu_call :=
  [RefreshBool_IDM_AUTOSTART (autostart_controls_enabled state) ControlsEnabled;
   RefreshBool_IDM_AUTOSTART (autostart_toggle state) Toggle;
   ChangeItemText_IDM_AUTOSTART (autostart_text state)].

(** The state the [IDM_AUTOSTART] callback of lines 463-469 passes to
    [Autostart::SetStartupState]. *)
Definition autostart_click (state : Autostart.StartupState) : Autostart.StartupState :=
  if bool_decide (state = Autostart.Enabled)
  then Autostart.Disabled else Autostart.Enabled.

(** ** The configuration files ([GetPaths], [ApplyStock],
    [CheckAndRunWelcome], lines 110-202) *)

(** [size_t] of the 64-bit build, and [std::wstring::npos]. *)
Definition size_t (z : Z) : Z := z mod 2 ^ 64.
Definition npos : Z := size_t (-1).

Fixpoint char_in (c : ascii) (chars : string) : bool :=
  match chars with
  | EmptyString => false
  | String d chars' => Ascii.eqb c d || char_in c chars'
  end.

(** [s.find_last_of(chars)]: the position of the last character of [s]
    that occurs in [chars], [npos] when there is none. *)
Fixpoint find_last_of_from (s chars : string) (pos found : Z) : Z :=
  match s with
  | EmptyString => found
  | String c s' =>
      find_last_of_from s' chars (pos + 1) (if char_in c chars then pos else found)
  end.

Definition find_last_of (s chars : string) : Z := find_last_of_from s chars 0 npos.

Fixpoint keep (n : nat) (s : string) : string :=
  match n, s with
  | S n', String c s' => String c (keep n' s')
  | _, _ => EmptyString
  end.

(** [s.erase(pos)]: the characters from [pos] on are removed;
    [std::out_of_range] ([None]) when [pos] is beyond the end. *)
Definition erase (s : string) (pos : Z) : option string :=
  if pos <=? Z.of_nat (String.length s) then Some (keep (Z.to_nat pos) s) else None.

(** Lines 146-147: the folder of the executable. *)
Definition exe_folder (ExeLocation : string) : option string :=
  erase ExeLocation (size_t (find_last_of ExeLocation "/\" + 1)).

(** The disk: the directories, and the files with their contents. *)
Record Disk : Type := {
  directories : gset string;
  files : gmap string string;
}.

(** What the system answers during startup: the shell folder, the
    location of the executable, [PathAllocCombine], the macros naming the
    application and its two files, the answer to the welcome box, and
    whether a [CreateDirectory] or a [CopyFile] goes through.
    [win32::GetExeLocation] "fatally dies if failed" (win32.hpp, line 30):
    [None] is that failure, after which nothing of the caller runs. *)
Record Install : Type := {
  RoamingAppData : option string;
  GetExeLocation : option string;
  PathAllocCombine : string → string → option string;
  NAME : string;
  CONFIG_FILE : string;
  EXCLUDE_FILE : string;
  MessageBox_IDYES : bool;
  CreateDirectory_succeeds : Disk → string → bool;
  CopyFile_succeeds : Disk → string → string → bool;
}.

(** [run.config_folder], [run.config_file], [run.exclude_file]. *)
Record Paths : Type := {
  config_folder : string;
  config_file : string;
  exclude_file : string;
}.

(** [GetPaths] (the branch without STORE); a fatal error is [None]. *)
Definition GetPaths (sys : Install) : option Paths :=
  appData ← RoamingAppData sys;
  configFolder ← PathAllocCombine sys appData (NAME sys);
  configFile ← PathAllocCombine sys configFolder (CONFIG_FILE sys);
  excludeFile ← PathAllocCombine sys configFolder (EXCLUDE_FILE sys);
  Some {| config_folder := configFolder; config_file := configFile;
          exclude_file := excludeFile |}.

Definition IsDirectory (d : Disk) (directory : string) : bool :=
  bool_decide (directory ∈ directories d).

Definition FileExists (d : Disk) (file : string) : bool :=
  bool_decide (is_Some (files d !! file)).

(** [CreateDirectory(path, NULL)]; [None] when it fails. *)
Definition CreateDirectory (sys : Install) (d : Disk) (path : string) : option Disk :=
  if CreateDirectory_succeeds sys d path
  then Some {| directories := {[path]} ∪ directories d; files := files d |}
  else None.

(** [CopyFile(from, to, FALSE)]; [None] when it fails. *)
Definition CopyFile (sys : Install) (d : Disk) (from to : string) : option Disk :=
  match files d !! from with
  | Some content =>
      if CopyFile_succeeds sys d from to
      then Some {| directories := directories d; files := <[to := content]> (files d) |}
      else None
  | None => None
  end.

(** [ApplyStock]; errors of level [Error] are reported and the function
    returns; [None] is a call that does not return to its caller: the
    fatal exit of [win32::GetExeLocation], or the exception of [erase]. *)
Definition ApplyStock (sys : Install) (run : Paths) (filename : string)
    (d : Disk) : option Disk :=
  ExeLocation ← GetExeLocation sys;
  exeFolder_str ← exe_folder ExeLocation;
  Some
    match PathAllocCombine sys exeFolder_str filename with
    | None => d
    | Some stockFile =>
        match PathAllocCombine sys (config_folder run) filename with
        | None => d
        | Some configFile =>
            match (if negb (IsDirectory d (config_folder run))
                   then CreateDirectory sys d (config_folder run)
                   else Some d) with
            | None => d
            | Some d =>
                match CopyFile sys d stockFile configFile with
                | Some d' => d'
                | None => d
                end
            end
        end
    end.

(** [CheckAndRunWelcome]: the result and the disk afterwards. *)
Definition CheckAndRunWelcome (sys : Install) (run : Paths) (d : Disk)
    : option (bool * Disk) :=
  if negb (IsDirectory d (config_folder run)) && negb (MessageBox_IDYES sys)
  then Some (false, d)
  else
    d ← (if negb (FileExists d (config_file run))
         then ApplyStock sys run (CONFIG_FILE sys) d else Some d);
    d ← (if negb (FileExists d (exclude_file run))
         then ApplyStock sys run (EXCLUDE_FILE sys) d else Some d);
    Some (true, d).

(** * Auxiliary definitions *)

(** Byte [n] of a 32-bit word, byte 0 being the least significant. *)
Definition byte_of (n : Z) (x : Z) : Z := Z.land (Z.shiftr x (8 * n)) 0xFF.

(** Where bit [i] of [swap_red_blue color] comes from. *)
Definition source_bit (i : Z) : Z :=
  if i <? 8 then i + 16 else if i <? 16 then i else if i <? 24 then i - 16 else i.

(** Lines 89-93 on a policy colour [s]: the colour handed to the call. *)
Definition fluent_clamp (s : Z) : Z :=
  uint32 (Z.shiftl 0x01 24 + Z.land s 0x00FFFFFF).

(** How many theme-refresh notifications, and how many native attribute
    calls, a list of native calls holds. *)
Definition is_theme_refresh (c : native_call) : bool :=
  match c with send_WM_THEMECHANGED _ => true | _ => false end.

Definition is_attribute_call (c : native_call) : bool :=
  match c with SetWindowCompositionAttribute _ _ => true | _ => false end.

Definition theme_refreshes (calls : list native_call) : nat :=
  length (List.filter is_theme_refresh calls).

Definition attribute_calls (calls : list native_call) : nat :=
  length (List.filter is_attribute_call calls).

(** The entry [RefreshHandles] writes for one taskbar window (lines 221
    and 225). *)
Definition bind_taskbar (os : Desktop) (t : gmap Z (Z * APPEARANCE))
    (taskbar : Window) : gmap Z (Z * APPEARANCE) :=
  <[monitor os taskbar := (taskbar, REGULAR_APPEARANCE)]> t.

(** The windows the two lookups of [RefreshHandles] return, in the order
    they are bound. *)
Definition found_taskbars (os : Desktop) : list Window :=
  Find_Shell_TrayWnd os :: FindEnum_Shell_SecondaryTrayWnd os.

(** The classification predicate in the words of the spec: visible,
    maximised, not cloaked, not blacklisted, on the current virtual
    desktop, on a monitor that is a key of the registry. *)
Definition counts_as_maximised (os : Desktop) (t : gmap Z (Z * APPEARANCE))
    (w : Window) : Prop :=
  visible os w = true ∧ state os w = SW_MAXIMIZE ∧ cloaked os w = false
  ∧ IsBlacklisted os w = false ∧ on_current_desktop os w = true
  ∧ is_Some (t !! monitor os w).

(** The globals when lines 333-366 are reached: lines 322-331 done. *)
Definition scanned (cfg : Config) (os : Desktop) (g : Globals) : Globals :=
  let g := set_should_show_peek g (bool_decide (PEEK cfg = Enabled)) in
  let g := set_all REGULAR_APPEARANCE g in
  if MAXIMISED_ENABLED cfg || bool_decide (PEEK cfg = Dynamic)
  then EnumWindows cfg os g else g.

(** The globals when the peek rule of lines 368-376 is reached. *)
Definition before_peek_rule (cfg : Config) (os : Desktop) (window : Window)
    (g : Globals) : Globals :=
  foreground_rule cfg os window (scanned cfg os g).

(** Whether the rule of lines 378-390 fires. *)
Definition timeline_fires (cfg : Config) (os : Desktop) : bool :=
  negb (ForegroundWindow os =? NullWindow)
  && TIMELINE_ENABLED cfg && is_timeline os (ForegroundWindow os).

(** What the decision pass reads of the globals, apart from [hwnd]: the
    registry and the two signal flags. *)
Definition same_view (g1 g2 : Globals) : Prop :=
  taskbars g1 = taskbars g2 ∧ peek_active g1 = peek_active g2
  ∧ start_opened g1 = start_opened g2.

(** [n] poll cycles on an unchanging desktop. *)
Definition run_cycles (n : nat) (cfg : Config) (os : Desktop) (g : Globals) : Globals :=
  Nat.iter n (λ g, (SetTaskbarBlur cfg os g).1) g.

(** * Sample data for the examples *)

(** The globals when the process starts: the initialisers of lines 39-59,
    315 and 69. *)
Definition startup : Globals :=
  {| taskbars := ∅; main_taskbar := NullWindow; should_show_peek := true;
     peek_active := false; start_opened := false; hwnd := 0; counter := 10;
     is_normal := ∅ |}.

(** Every feature switched on; the regular appearance is the normal
    accent, the others are fluent with their own colour. *)
Definition all_enabled : Config :=
  {| deref := λ a,
       match a with
       | REGULAR_APPEARANCE => {| ACCENT_of := ACCENT_NORMAL; COLOR := 0 |}
       | MAXIMISED_APPEARANCE => {| ACCENT_of := ACCENT_OTHER 3; COLOR := 0xAA000000 |}
       | START_APPEARANCE => {| ACCENT_of := ACCENT_ENABLE_FLUENT; COLOR := 0x00112233 |}
       | CORTANA_APPEARANCE => {| ACCENT_of := ACCENT_ENABLE_FLUENT; COLOR := 0x80445566 |}
       | TIMELINE_APPEARANCE => {| ACCENT_of := ACCENT_ENABLE_FLUENT; COLOR := 0xFF000000 |}
       end;
     MAXIMISED_ENABLED := true;
     MAXIMISED_REGULAR_ON_PEEK := true;
     PEEK := Dynamic;
     PEEK_ONLY_MAIN := false;
     CORTANA_ENABLED := true;
     START_ENABLED := true;
     TIMELINE_ENABLED := true |}.

(** Two monitors, 1 and 2, with the taskbars 100 and 101.  Window 5 is a
    maximised search window on monitor 1, window 6 a restored window on
    monitor 2, window 7 the task view on monitor 1.  [EnumWindows] ends
    with window [last]; [fg] is the foreground window. *)
Definition two_monitors (fg last : Window) : Desktop :=
  {| visible := λ w, (w =? 5) || (w =? 6) || (w =? 7);
     state := λ w, if w =? 5 then SW_MAXIMIZE else 1;
     cloaked := λ _, false;
     IsBlacklisted := λ _, false;
     on_current_desktop := λ _, true;
     monitor := λ w, if (w =? 6) || (w =? 101) then 2 else 1;
     classname := λ w, if w =? 7 then "MultitaskingViewFrame" else "Window";
     filename := λ w, if w =? 5 then "SearchUI.exe" else "app.exe";
     EnumWindows_order := filter (λ w, w ≠ last) [5; 6; 7] ++ [last];
     ForegroundWindow := fg;
     Find_Shell_TrayWnd := 100;
     FindEnum_Shell_SecondaryTrayWnd := [101];
     timeline_av := false;
     CORE_WINDOW := "Windows.UI.Core.CoreWindow";
     SetWindowCompositionAttribute_available := true |}.

(** One monitor: the desktop above after monitor 2 is detached. *)
Definition one_monitor (fg last : Window) : Desktop :=
  {| visible := visible (two_monitors fg last);
     state := state (two_monitors fg last);
     cloaked := λ _, false;
     IsBlacklisted := λ _, false;
     on_current_desktop := λ _, true;
     monitor := λ _, 1;
     classname := classname (two_monitors fg last);
     filename := filename (two_monitors fg last);
     EnumWindows_order := EnumWindows_order (two_monitors fg last);
     ForegroundWindow := fg;
     Find_Shell_TrayWnd := 100;
     FindEnum_Shell_SecondaryTrayWnd := [];
     timeline_av := false;
     CORE_WINDOW := "Windows.UI.Core.CoreWindow";
     SetWindowCompositionAttribute_available := true |}.

(** The desktop while explorer restarts: no taskbar window exists, so
    [Window::Find] answers the null window. *)
Definition no_taskbar : Desktop :=
  {| visible := visible (two_monitors 0 7);
     state := state (two_monitors 0 7);
     cloaked := λ _, false;
     IsBlacklisted := λ _, false;
     on_current_desktop := λ _, true;
     monitor := λ _, 1;
     classname := classname (two_monitors 0 7);
     filename := filename (two_monitors 0 7);
     EnumWindows_order := [5; 6; 7];
     ForegroundWindow := 0;
     Find_Shell_TrayWnd := NullWindow;
     FindEnum_Shell_SecondaryTrayWnd := [];
     timeline_av := false;
     CORE_WINDOW := "Windows.UI.Core.CoreWindow";
     SetWindowCompositionAttribute_available := true |}.

(** Two monitors on which no window is maximised: window 6 on monitor 2
    is in the foreground. *)
Definition quiet_desktop : Desktop :=
  {| visible := visible (two_monitors 6 6);
     state := λ _, 1;
     cloaked := λ _, false;
     IsBlacklisted := λ _, false;
     on_current_desktop := λ _, true;
     monitor := monitor (two_monitors 6 6);
     classname := classname (two_monitors 6 6);
     filename := λ _, "app.exe";
     EnumWindows_order := [6];
     ForegroundWindow := 6;
     Find_Shell_TrayWnd := 100;
     FindEnum_Shell_SecondaryTrayWnd := [101];
     timeline_av := false;
     CORE_WINDOW := "Windows.UI.Core.CoreWindow";
     SetWindowCompositionAttribute_available := true |}.

(** A build with Timeline: the foreground window 8 is the task view, a
    core window of explorer, on monitor 2. *)
Definition modern_task_view_desktop : Desktop :=
  {| visible := λ w, visible (two_monitors 8 7) w || (w =? 8);
     state := state (two_monitors 8 7);
     cloaked := λ _, false;
     IsBlacklisted := λ _, false;
     on_current_desktop := λ _, true;
     monitor := λ w, if w =? 8 then 2 else monitor (two_monitors 8 7) w;
     classname := λ w, if w =? 8 then "Windows.UI.Core.CoreWindow" else "Window";
     filename := λ w, if w =? 8 then "explorer.EXE" else filename (two_monitors 8 7) w;
     EnumWindows_order := [5; 6; 8];
     ForegroundWindow := 8;
     Find_Shell_TrayWnd := 100;
     FindEnum_Shell_SecondaryTrayWnd := [101];
     timeline_av := true;
     CORE_WINDOW := "Windows.UI.Core.CoreWindow";
     SetWindowCompositionAttribute_available := true |}.

(** The globals after the registry of [os] is built at startup; the first
    decision pass is due ([counter] is 10) and [hwnd] is still null. *)
Definition first_cycle (os : Desktop) : Globals := RefreshHandles os startup.

(** The search window 5 is in the foreground and is the last window
    [EnumWindows] reports. *)
Definition search_desktop : Desktop := two_monitors 5 5.

(** Eleven cycles after startup on [search_desktop]: the second decision
    pass is due, and [hwnd] is the search window. *)
Definition search_in_foreground : Globals :=
  run_cycles 11 all_enabled search_desktop (first_cycle search_desktop).

(** The task view 7 is in the foreground while window 5 is maximised on
    monitor 1, and Aero Peek has started. *)
Definition task_view_desktop : Desktop := two_monitors 7 7.

Definition peeking_at_task_view : Globals :=
  peek_hook 0x21 (first_cycle task_view_desktop).

(** * Further auxiliary definitions *)

(** One request to [SetWindowBlur]: the window, the accent, the colour. *)
Definition blur_step (os : Desktop) (acc : gmap Z bool * list native_call)
    (request : Window * (ACCENT * Z)) : gmap Z bool * list native_call :=
  let r := SetWindowBlur os acc.1 request.1 request.2.1 request.2.2 in
  (r.1, acc.2 ++ r.2).

(** A sequence of [SetWindowBlur] calls sharing the memo. *)
Definition blur_each (os : Desktop) (requests : list (Window * (ACCENT * Z)))
    (memo : gmap Z bool) : gmap Z bool * list native_call :=
  foldl (blur_step os) (memo, []) requests.

(** The requests the loop of lines 399-403 makes, in iteration order. *)
Definition requests_of (cfg : Config) (t : gmap Z (Z * APPEARANCE))
    : list (Window * (ACCENT * Z)) :=
  (λ entry : Z * (Z * APPEARANCE),
     (entry.2.1, (ACCENT_of (deref cfg entry.2.2), COLOR (deref cfg entry.2.2))))
  <$> map_to_list t.

(** No taskbar window is bound to two monitors. *)
Definition distinct_surfaces (t : gmap Z (Z * APPEARANCE)) : Prop :=
  ∀ k1 k2 w a1 a2, t !! k1 = Some (w, a1) → t !! k2 = Some (w, a2) → k1 = k2.

(** What [SetWindowBlur] issues for a request judged against [memo]. *)
Definition calls_for (os : Desktop) (memo : gmap Z bool)
    (request : Window * (ACCENT * Z)) : list native_call :=
  (SetWindowBlur os memo request.1 request.2.1 request.2.2).2.

(** The memo entry [SetWindowBlur] leaves for a request. *)
Definition record_request (memo : gmap Z bool) (request : Window * (ACCENT * Z))
    : gmap Z bool :=
  <[request.1 := bool_decide (request.2.1 = ACCENT_NORMAL)]> memo.

(** The window a native call is addressed to. *)
Definition target (c : native_call) : Window :=
  match c with
  | send_WM_THEMECHANGED w => w
  | SetWindowCompositionAttribute w _ => w
  end.

(** Poll cycles on a desktop that may change from one cycle to the next:
    one [SetTaskbarBlur] per element of [desktops]. *)
Definition poll (cfg : Config) (g : Globals) (desktops : list Desktop) : Globals :=
  foldl (λ g os, (SetTaskbarBlur cfg os g).1) g desktops.

(** Whether the taskbar on the monitor of [w] is the main taskbar (line
    298). *)
Definition on_main_taskbar (os : Desktop) (g : Globals) (w : Window) : bool :=
  match taskbars g !! monitor os w with
  | Some taskbar => taskbar.1 =? main_taskbar g
  | None => false
  end.

(** The appearance the rules give the taskbar of monitor [k], written as
    one expression in the order of their precedence: Timeline, then the
    peek override, then the Start rule on the foreground monitor, then a
    maximised window, then the regular appearance. *)
Definition decided_appearance (cfg : Config) (os : Desktop) (window : Window)
    (g : Globals) (k : Z) : APPEARANCE :=
  if timeline_fires cfg os then TIMELINE_APPEARANCE
  else if MAXIMISED_ENABLED cfg && MAXIMISED_REGULAR_ON_PEEK cfg && peek_active g
  then REGULAR_APPEARANCE
  else if negb (ForegroundWindow os =? NullWindow)
          && bool_decide (is_Some (taskbars g !! monitor os (ForegroundWindow os)))
          && maximised_on_taskbar_monitor os (taskbars g) window
          && (monitor os (ForegroundWindow os) =? k)
  then (if START_ENABLED cfg && start_opened g
        then MAXIMISED_APPEARANCE else START_APPEARANCE)
  else if MAXIMISED_ENABLED cfg
          && existsb (λ w, maximised_on_taskbar_monitor os (taskbars g) w
                           && (monitor os w =? k)) (EnumWindows_order os)
  then MAXIMISED_APPEARANCE
  else REGULAR_APPEARANCE.

(** No character of [s] occurs in [chars]. *)
Fixpoint no_char_in (s chars : string) : bool :=
  match s with
  | EmptyString => true
  | String c s' => negb (char_in c chars) && no_char_in s' chars
  end.

(** * Further sample data *)

(** A version of Windows without [SetWindowCompositionAttribute]. *)
Definition old_windows : Desktop :=
  {| visible := visible search_desktop;
     state := state search_desktop;
     cloaked := λ _, false;
     IsBlacklisted := λ _, false;
     on_current_desktop := λ _, true;
     monitor := monitor search_desktop;
     classname := classname search_desktop;
     filename := filename search_desktop;
     EnumWindows_order := EnumWindows_order search_desktop;
     ForegroundWindow := 5;
     Find_Shell_TrayWnd := 100;
     FindEnum_Shell_SecondaryTrayWnd := [101];
     timeline_av := false;
     CORE_WINDOW := "Windows.UI.Core.CoreWindow";
     SetWindowCompositionAttribute_available := false |}.

(** Whether a path ends in a backslash. *)
Fixpoint ends_in_backslash (s : string) : bool :=
  match s with
  | EmptyString => false
  | String c EmptyString => Ascii.eqb c "\"
  | String _ s' => ends_in_backslash s'
  end.

(** An installation in the usual place whose user accepts the licence;
    every directory creation and file copy goes through. *)
Definition fresh_install : Install :=
  {| RoamingAppData := Some "C:\Users\u\AppData\Roaming";
     GetExeLocation := Some "C:\Program Files\TranslucentTB\TranslucentTB.exe";
     PathAllocCombine := λ folder name,
       Some (if ends_in_backslash folder then folder +:+ name
             else folder +:+ "\" +:+ name);
     NAME := "TranslucentTB";
     CONFIG_FILE := "config.cfg";
     EXCLUDE_FILE := "dynamic-ws-exclude.csv";
     MessageBox_IDYES := true;
     CreateDirectory_succeeds := λ _ _, true;
     CopyFile_succeeds := λ _ _ _, true |}.

Definition fresh_paths : Paths :=
  {| config_folder := "C:\Users\u\AppData\Roaming\TranslucentTB";
     config_file := "C:\Users\u\AppData\Roaming\TranslucentTB\config.cfg";
     exclude_file := "C:\Users\u\AppData\Roaming\TranslucentTB\dynamic-ws-exclude.csv" |}.

(** The disk before the first run: the stock files beside the executable. *)
Definition fresh_disk : Disk :=
  {| directories := {["C:\Program Files\TranslucentTB"]};
     files := {["C:\Program Files\TranslucentTB\config.cfg" := "stock config";
                "C:\Program Files\TranslucentTB\dynamic-ws-exclude.csv"
                  := "stock exclude"]} |}.

(** One monitor carrying two taskbar windows: [Window::Find] answers
    window 100, the enumeration of secondary taskbars window 102, and the
    system reports monitor 1 for both. *)
Definition stacked_taskbars : Desktop :=
  {| visible := visible (two_monitors 5 5);
     state := state (two_monitors 5 5);
     cloaked := λ _, false;
     IsBlacklisted := λ _, false;
     on_current_desktop := λ _, true;
     monitor := λ _, 1;
     classname := classname (two_monitors 5 5);
     filename := filename (two_monitors 5 5);
     EnumWindows_order := EnumWindows_order (two_monitors 5 5);
     ForegroundWindow := 5;
     Find_Shell_TrayWnd := 100;
     FindEnum_Shell_SecondaryTrayWnd := [102];
     timeline_av := false;
     CORE_WINDOW := "Windows.UI.Core.CoreWindow";
     SetWindowCompositionAttribute_available := true |}.

(** The installation above when the location of the executable cannot be
    obtained. *)
Definition lost_install : Install :=
  {| RoamingAppData := RoamingAppData fresh_install;
     GetExeLocation := None;
     PathAllocCombine := PathAllocCombine fresh_install;
     NAME := NAME fresh_install;
     CONFIG_FILE := CONFIG_FILE fresh_install;
     EXCLUDE_FILE := EXCLUDE_FILE fresh_install;
     MessageBox_IDYES := true;
     CreateDirectory_succeeds := λ _ _, true;
     CopyFile_succeeds := λ _ _ _, true |}.

(** * Colours *)

Lemma testbit_above (n p i : Z) :
  0 ≤ n < 2 ^ p → 0 ≤ p → p ≤ i → Z.testbit n i = false.
Proof.
  intros Hn Hp Hi.
  rewrite <- (Z.mod_small n (2 ^ p)) by assumption.
  apply Z.mod_pow2_bits_high. lia.
Qed.

Lemma add_disjoint (a b : Z) : Z.land a b = 0 → a + b = Z.lor a b.
Proof.
  intros H. rewrite <- Z.lxor_lor by assumption.
  apply Z.add_nocarry_lxor. assumption.
Qed.

(** Evaluate the bits of literals and the sums in bit indices. *)
Ltac eval_bits :=
  repeat match goal with
    | |- context [Z.testbit ?a (?x + ?y)] =>
        let v := eval vm_compute in (x + y) in change (x + y) with v
    | |- context [Z.testbit ?a (?x - ?y)] =>
        let v := eval vm_compute in (x - y) in change (x - y) with v
    end;
  repeat match goal with
    | |- context [Z.testbit (Zpos ?p) ?i] =>
        let v := eval vm_compute in (Z.testbit (Zpos p) i) in
        change (Z.testbit (Zpos p) i) with v
    | |- context [Z.testbit ?a (Zneg ?q)] =>
        change (Z.testbit a (Zneg q)) with false
    end;
  rewrite ?andb_true_r, ?andb_false_r, ?orb_false_r, ?orb_false_l,
    ?andb_false_l, ?andb_true_l; try reflexivity.

Ltac push_bits :=
  repeat first
    [ rewrite Z.lor_spec | rewrite Z.land_spec
    | rewrite Z.shiftr_spec by lia | rewrite Z.shiftl_spec by lia ].

(** Split a bit index below 32 into its 32 values. *)
Ltac each_bit i :=
  let H := fresh "Hcase" in
  assert (i = 0 ∨ i = 1 ∨ i = 2 ∨ i = 3 ∨ i = 4 ∨ i = 5 ∨ i = 6 ∨ i = 7
          ∨ i = 8 ∨ i = 9 ∨ i = 10 ∨ i = 11 ∨ i = 12 ∨ i = 13 ∨ i = 14
          ∨ i = 15 ∨ i = 16 ∨ i = 17 ∨ i = 18 ∨ i = 19 ∨ i = 20 ∨ i = 21
          ∨ i = 22 ∨ i = 23 ∨ i = 24 ∨ i = 25 ∨ i = 26 ∨ i = 27 ∨ i = 28
          ∨ i = 29 ∨ i = 30 ∨ i = 31) as H by lia;
  repeat (destruct H as [H | H]); subst i.

Section Colour.
Variable color : Z.
Hypothesis color_range : 0 ≤ color < 2 ^ 32.

Local Abbreviation A := (Z.land color 0xFF00FF00).
Local Abbreviation R := (Z.shiftr (Z.land color 0x00FF0000) 16).
Local Abbreviation B := (Z.shiftl (Z.land color 0x000000FF) 16).

Lemma color_high_bits (i : Z) : 32 ≤ i → Z.testbit color i = false.
Proof. intros. apply (testbit_above color 32); lia. Qed.

Lemma literal_FF_high (i : Z) : 8 ≤ i → Z.testbit 0xFF i = false.
Proof. intros. apply (testbit_above 0xFF 8); lia. Qed.

Lemma swap_parts_disjoint : Z.land A R = 0 ∧ Z.land (Z.lor A R) B = 0.
Proof.
  split; apply Z.bits_inj'; intros i Hi; rewrite Z.bits_0;
    (destruct (Z.lt_ge_cases i 32) as [Hlt | Hge];
     [ each_bit i; push_bits; eval_bits
     | push_bits;
       rewrite ?(color_high_bits i), ?(color_high_bits (i + 16)),
         ?(literal_FF_high (i - 16)) by lia;
       rewrite ?andb_false_r; reflexivity ]).
Qed.

Lemma swap_red_blue_lor : swap_red_blue color = Z.lor (Z.lor A R) B.
Proof.
  destruct swap_parts_disjoint as [H1 H2].
  unfold swap_red_blue, uint32.
  rewrite (add_disjoint A R H1), (add_disjoint _ B H2).
  apply Z.bits_inj'; intros i Hi.
  destruct (Z.lt_ge_cases i 32) as [Hlt | Hge].
  - rewrite Z.mod_pow2_bits_low by lia. reflexivity.
  - rewrite Z.mod_pow2_bits_high by lia. push_bits.
    rewrite ?(color_high_bits i), ?(color_high_bits (i + 16)),
      ?(literal_FF_high (i - 16)) by lia.
    rewrite ?andb_false_r. reflexivity.
Qed.

Lemma swap_red_blue_testbit (i : Z) :
  0 ≤ i → Z.testbit (swap_red_blue color) i = Z.testbit color (source_bit i).
Proof.
  intros Hi. rewrite swap_red_blue_lor.
  destruct (Z.lt_ge_cases i 32) as [Hlt | Hge].
  - each_bit i; push_bits; eval_bits.
  - assert (source_bit i = i) as ->
      by (unfold source_bit;
          destruct (Z.ltb_spec i 8), (Z.ltb_spec i 16), (Z.ltb_spec i 24); lia).
    push_bits.
    rewrite ?(color_high_bits i), ?(color_high_bits (i + 16)),
      ?(literal_FF_high (i - 16)) by lia.
    rewrite ?andb_false_r. reflexivity.
Qed.

Lemma swap_red_blue_range : 0 ≤ swap_red_blue color < 2 ^ 32.
Proof. unfold swap_red_blue, uint32. apply Z.mod_pos_bound. lia. Qed.
End Colour.

Lemma byte_of_testbit (n x i : Z) :
  0 ≤ n → 0 ≤ i → Z.testbit (byte_of n x) i = Z.testbit x (i + 8 * n) && (i <? 8).
Proof.
  intros Hn Hi. unfold byte_of.
  rewrite Z.land_spec, Z.shiftr_spec by lia. f_equal.
  change 255 with (Z.ones 8).
  destruct (Z.ltb_spec i 8); [apply Z.ones_spec_low | apply Z.ones_spec_high]; lia.
Qed.

Lemma byte_of_div (n x : Z) : 0 ≤ n → byte_of n x = (x / 2 ^ (8 * n)) mod 2 ^ 8.
Proof.
  intros Hn. unfold byte_of.
  rewrite Z.shiftr_div_pow2 by lia.
  change 255 with (Z.ones 8). apply Z.land_ones. lia.
Qed.

(** The byte at position [n] of the result is the byte at position [m] of
    the argument, whenever [source_bit] moves the 8 bits accordingly. *)
Lemma byte_of_swap_red_blue (color n m : Z) :
  0 ≤ color < 2 ^ 32 → 0 ≤ n → 0 ≤ m →
  (∀ i, 0 ≤ i < 8 → source_bit (i + 8 * n) = i + 8 * m) →
  byte_of n (swap_red_blue color) = byte_of m color.
Proof.
  intros Hc Hn Hm Hsrc. apply Z.bits_inj'; intros i Hi.
  rewrite !byte_of_testbit by lia.
  destruct (Z.ltb_spec i 8); [| by rewrite !andb_false_r].
  rewrite swap_red_blue_testbit by lia. by rewrite Hsrc by lia.
Qed.

Lemma swap_red_blue_bytes (color : Z) :
  0 ≤ color < 2 ^ 32 →
  byte_of 3 (swap_red_blue color) = byte_of 3 color
  ∧ byte_of 2 (swap_red_blue color) = byte_of 0 color
  ∧ byte_of 1 (swap_red_blue color) = byte_of 1 color
  ∧ byte_of 0 (swap_red_blue color) = byte_of 2 color.
Proof.
  intros Hc. repeat split; apply byte_of_swap_red_blue; try lia;
    intros i Hi; unfold source_bit;
    repeat match goal with
      | |- context [?a <? ?b] => destruct (Z.ltb_spec a b)
      end; lia.
Qed.

Lemma fluent_clamp_value (s : Z) :
  0 ≤ s < 2 ^ 32 → Z.shiftr s 24 = 0 → fluent_clamp s = 2 ^ 24 + s ∧ s < 2 ^ 24.
Proof.
  intros Hs Hz. unfold fluent_clamp, uint32.
  rewrite Z.shiftr_div_pow2 in Hz by lia.
  change 16777215 with (Z.ones 24). rewrite Z.land_ones by lia.
  change (Z.shiftl 1 24) with (2 ^ 24).
  assert (s < 2 ^ 24) by (apply Z.div_small_iff in Hz; lia).
  rewrite (Z.mod_small s) by lia. rewrite Z.mod_small by lia. done.
Qed.

Lemma fluent_clamp_bytes (s : Z) :
  0 ≤ s < 2 ^ 32 → Z.shiftr s 24 = 0 →
  byte_of 3 (fluent_clamp s) = 1
  ∧ byte_of 2 (fluent_clamp s) = byte_of 2 s
  ∧ byte_of 1 (fluent_clamp s) = byte_of 1 s
  ∧ byte_of 0 (fluent_clamp s) = byte_of 0 s
  ∧ Z.land (fluent_clamp s) 0x00FFFFFF = Z.land s 0x00FFFFFF.
Proof.
  intros Hs Hz. destruct (fluent_clamp_value s Hs Hz) as [-> Hlt].
  rewrite !byte_of_div by lia.
  change 16777215 with (Z.ones 24). rewrite !Z.land_ones by lia.
  change (8 * 3) with 24. change (8 * 2) with 16. change (8 * 1) with 8.
  change (8 * 0) with 0. change (2 ^ 0) with 1.
  change (2 ^ 24) with 16777216. change (2 ^ 16) with 65536.
  change (2 ^ 8) with 256.
  repeat split; Z.div_mod_to_equations; lia.
Qed.

Lemma alpha_shiftr (s : Z) : 0 ≤ s < 2 ^ 32 → Z.shiftr s 24 = byte_of 3 s.
Proof.
  intros Hs. rewrite byte_of_div by lia. rewrite Z.shiftr_div_pow2 by lia.
  change (8 * 3) with 24. symmetry. apply Z.mod_small.
  change (2 ^ 24) with 16777216. change (2 ^ 8) with 256.
  change (2 ^ 32) with 4294967296 in Hs.
  Z.div_mod_to_equations; lia.
Qed.

(** What [SetWindowBlur] does for an accent other than [ACCENT_NORMAL]. *)
Lemma SetWindowBlur_not_normal (os : Desktop) (memo : gmap Z bool)
    (window : Window) (accent : ACCENT) (color : Z) :
  SetWindowCompositionAttribute_available os = true →
  accent ≠ ACCENT_NORMAL →
  SetWindowBlur os memo window accent color =
    (<[window := false]> memo,
     [SetWindowCompositionAttribute window
        {| nAccentState := accent; nFlags := 2;
           nColor := (if bool_decide (accent = ACCENT_ENABLE_FLUENT)
                         && (Z.shiftr (swap_red_blue color) 24 =? 0)
                      then fluent_clamp (swap_red_blue color)
                      else swap_red_blue color);
           nAnimationId := 0 |}]).
Proof.
  intros Hav Hacc. unfold SetWindowBlur. rewrite Hav. cbn.
  destruct accent as [| | code]; [done | |];
    destruct (_ && _); reflexivity.
Qed.

(** * The dispatcher *)

Example swap_red_blue_sample : swap_red_blue 0x11223344 = 0x11443322.
Proof. reflexivity. Qed.

Example SetWindowBlur_fluent_sample :
  (SetWindowBlur (two_monitors 5 5) ∅ 100 ACCENT_ENABLE_FLUENT 0x00112233).2
  = [SetWindowCompositionAttribute 100
       {| nAccentState := ACCENT_ENABLE_FLUENT; nFlags := 2;
          nColor := 0x01332211; nAnimationId := 0 |}].
Proof. reflexivity. Qed.

(** C6.  Two consecutive calls of [SetWindowBlur] with [ACCENT_NORMAL] on
    one window: the second call issues nothing and leaves the memo as it
    is; the first sends [WM_THEMECHANGED] exactly when the primitive is
    available and the memo does not record the window as normal; so the
    two calls together issue at most one notification and no native
    attribute call (hence at most one). *)
Theorem SetWindowBlur_normal_twice (os : Desktop) (memo : gmap Z bool)
    (window : Window) (color1 color2 : Z) :
  let first := SetWindowBlur os memo window ACCENT_NORMAL color1 in
  let second := SetWindowBlur os first.1 window ACCENT_NORMAL color2 in
  second = (first.1, [])
  ∧ first.2 = (if SetWindowCompositionAttribute_available os
                  && not_known_normal memo window
               then [send_WM_THEMECHANGED window] else [])
  ∧ (theme_refreshes (first.2 ++ second.2) ≤ 1)%nat
  ∧ (attribute_calls (first.2 ++ second.2) ≤ 1)%nat
  ∧ attribute_calls (first.2 ++ second.2) = 0%nat.
Proof.
  unfold SetWindowBlur; cbn.
  destruct (SetWindowCompositionAttribute_available os); cbn.
  - destruct (not_known_normal memo window) eqn:Hmemo; cbn.
    + unfold not_known_normal. rewrite lookup_insert_eq. cbn.
      repeat split; cbn; lia.
    + rewrite Hmemo. repeat split; cbn; lia.
  - repeat split; cbn; lia.
Qed.

(** C7.  With the primitive available, [SetWindowBlur] in Fluent mode
    issues one attribute call; the alpha byte of the colour it passes is
    never zero, and when the alpha byte of the requested colour is 0x00 it
    is 0x01, while red, green and blue keep their values (red and blue in
    exchanged positions, as line 74 puts them) and the low 24 bits are
    those of the policy colour before the clamp. *)
Theorem SetWindowBlur_fluent_alpha (os : Desktop) (memo : gmap Z bool)
    (window : Window) (color : Z) :
  SetWindowCompositionAttribute_available os = true →
  0 ≤ color < 2 ^ 32 →
  ∃ applied : Z,
    (SetWindowBlur os memo window ACCENT_ENABLE_FLUENT color).2
    = [SetWindowCompositionAttribute window
         {| nAccentState := ACCENT_ENABLE_FLUENT; nFlags := 2;
            nColor := applied; nAnimationId := 0 |}]
    ∧ byte_of 3 applied ≠ 0
    ∧ (byte_of 3 color = 0 →
       byte_of 3 applied = 1
       ∧ byte_of 0 applied = byte_of 2 color
       ∧ byte_of 1 applied = byte_of 1 color
       ∧ byte_of 2 applied = byte_of 0 color
       ∧ Z.land applied 0x00FFFFFF = Z.land (swap_red_blue color) 0x00FFFFFF).
Proof.
  intros Hav Hc.
  rewrite SetWindowBlur_not_normal by done. cbn [snd].
  pose proof (swap_red_blue_range color) as Hs.
  destruct (swap_red_blue_bytes color Hc) as (Ha & Hr & Hg & Hb).
  rewrite bool_decide_eq_true_2 by done. cbn [andb].
  rewrite (alpha_shiftr _ Hs), Ha.
  destruct (Z.eqb_spec (byte_of 3 color) 0) as [Hz | Hnz].
  - assert (Z.shiftr (swap_red_blue color) 24 = 0) as Hz'
      by (by rewrite (alpha_shiftr _ Hs), Ha).
    destruct (fluent_clamp_bytes _ Hs Hz') as (H3 & H2 & H1 & H0 & Hlow).
    eexists; split; [reflexivity |]. split; [lia |]. intros _.
    rewrite H3, H2, H1, H0, Hr, Hg, Hb. done.
  - eexists; split; [reflexivity |]. split; [by rewrite Ha |]. done.
Qed.

Lemma SetWindowBlur_fluent_alpha_witness :
  ∃ applied : Z,
    (SetWindowBlur (two_monitors 5 5) ∅ 100 ACCENT_ENABLE_FLUENT 0x00112233).2
    = [SetWindowCompositionAttribute 100
         {| nAccentState := ACCENT_ENABLE_FLUENT; nFlags := 2;
            nColor := applied; nAnimationId := 0 |}]
    ∧ byte_of 3 applied ≠ 0
    ∧ (byte_of 3 0x00112233 = 0 →
       byte_of 3 applied = 1
       ∧ byte_of 0 applied = byte_of 2 0x00112233
       ∧ byte_of 1 applied = byte_of 1 0x00112233
       ∧ byte_of 2 applied = byte_of 0 0x00112233
       ∧ Z.land applied 0x00FFFFFF = Z.land (swap_red_blue 0x00112233) 0x00FFFFFF).
Proof.
  apply (SetWindowBlur_fluent_alpha (two_monitors 5 5) ∅ 100 0x00112233).
  - reflexivity.
  - lia.
Defined.

(** C10, as stated, fails: in Fluent mode the colour 0x00112233 is passed
    as 0x01332211, whose alpha byte is not the alpha byte of the input. *)
Lemma SetWindowBlur_alpha_not_preserved :
  (SetWindowBlur (two_monitors 5 5) ∅ 100 ACCENT_ENABLE_FLUENT 0x00112233).2
  = [SetWindowCompositionAttribute 100
       {| nAccentState := ACCENT_ENABLE_FLUENT; nFlags := 2;
          nColor := 0x01332211; nAnimationId := 0 |}]
  ∧ byte_of 3 0x01332211 ≠ byte_of 3 0x00112233.
Proof. split; [reflexivity | discriminate]. Qed.

(** C10, amended.  With the primitive available and an accent other than
    [ACCENT_NORMAL], [SetWindowBlur] issues one attribute call whose colour
    is the input with red and blue exchanged: bits 16-23 of the input are
    bits 0-7 of the output, bits 0-7 are bits 16-23, the green byte is
    kept, and the alpha byte is kept too unless the accent is Fluent and
    the alpha byte is zero, where it becomes 0x01. *)
Theorem SetWindowBlur_colour (os : Desktop) (memo : gmap Z bool)
    (window : Window) (accent : ACCENT) (color : Z) :
  SetWindowCompositionAttribute_available os = true →
  accent ≠ ACCENT_NORMAL →
  0 ≤ color < 2 ^ 32 →
  ∃ applied : Z,
    (SetWindowBlur os memo window accent color).2
    = [SetWindowCompositionAttribute window
         {| nAccentState := accent; nFlags := 2;
            nColor := applied; nAnimationId := 0 |}]
    ∧ (∀ i, 0 ≤ i < 8 → Z.testbit applied i = Z.testbit color (i + 16))
    ∧ (∀ i, 8 ≤ i < 16 → Z.testbit applied i = Z.testbit color i)
    ∧ (∀ i, 16 ≤ i < 24 → Z.testbit applied i = Z.testbit color (i - 16))
    ∧ byte_of 3 applied
      = (if bool_decide (accent = ACCENT_ENABLE_FLUENT) && (byte_of 3 color =? 0)
         then 1 else byte_of 3 color).
Proof.
  intros Hav Hacc Hc.
  rewrite SetWindowBlur_not_normal by done. cbn [snd].
  pose proof (swap_red_blue_range color) as Hs.
  destruct (swap_red_blue_bytes color Hc) as (Ha & _).
  rewrite (alpha_shiftr _ Hs), Ha.
  assert (∀ i, 0 ≤ i < 24 →
            Z.testbit (swap_red_blue color) i = Z.testbit color (source_bit i))
    as Hbits by (intros; apply swap_red_blue_testbit; lia).
  assert (∀ i, 0 ≤ i < 8 → source_bit i = i + 16) as S0
    by (intros i Hi; unfold source_bit; destruct (Z.ltb_spec i 8); lia).
  assert (∀ i, 8 ≤ i < 16 → source_bit i = i) as S1
    by (intros i Hi; unfold source_bit;
        destruct (Z.ltb_spec i 8), (Z.ltb_spec i 16); lia).
  assert (∀ i, 16 ≤ i < 24 → source_bit i = i - 16) as S2
    by (intros i Hi; unfold source_bit;
        destruct (Z.ltb_spec i 8), (Z.ltb_spec i 16), (Z.ltb_spec i 24); lia).
  destruct (bool_decide (accent = ACCENT_ENABLE_FLUENT) && (byte_of 3 color =? 0))
    eqn:Hclamp.
  - apply andb_true_iff in Hclamp as [_ Hz%Z.eqb_eq].
    assert (Z.shiftr (swap_red_blue color) 24 = 0) as Hz'
      by (by rewrite (alpha_shiftr _ Hs), Ha).
    destruct (fluent_clamp_value _ Hs Hz') as [Hval Hlt].
    destruct (fluent_clamp_bytes _ Hs Hz') as (H3 & _).
    assert (∀ i, 0 ≤ i < 24 →
              Z.testbit (fluent_clamp (swap_red_blue color)) i
              = Z.testbit (swap_red_blue color) i) as Hsame.
    { intros i Hi. rewrite Hval.
      rewrite <- (Z.mod_pow2_bits_low (2 ^ 24 + swap_red_blue color) 24 i) by lia.
      rewrite <- (Z.mod_pow2_bits_low (swap_red_blue color) 24 i) by lia.
      f_equal. rewrite Z.add_comm. rewrite <- Z.add_mod_idemp_r by lia.
      rewrite Z.mod_same by lia. by rewrite Z.add_0_r. }
    eexists; split; [reflexivity |].
    repeat split; [..| done]; intros i Hi;
      rewrite Hsame, Hbits by lia; f_equal; auto with lia.
  - eexists; split; [reflexivity |].
    repeat split; [..| done]; intros i Hi; rewrite Hbits by lia; f_equal;
      auto with lia.
Qed.

Lemma SetWindowBlur_colour_witness :
  ∃ applied : Z,
    (SetWindowBlur (two_monitors 5 5) ∅ 100 (ACCENT_OTHER 3) 0x80112233).2
    = [SetWindowCompositionAttribute 100
         {| nAccentState := ACCENT_OTHER 3; nFlags := 2;
            nColor := applied; nAnimationId := 0 |}]
    ∧ (∀ i, 0 ≤ i < 8 → Z.testbit applied i = Z.testbit 0x80112233 (i + 16))
    ∧ (∀ i, 8 ≤ i < 16 → Z.testbit applied i = Z.testbit 0x80112233 i)
    ∧ (∀ i, 16 ≤ i < 24 → Z.testbit applied i = Z.testbit 0x80112233 (i - 16))
    ∧ byte_of 3 applied
      = (if bool_decide (ACCENT_OTHER 3 = ACCENT_ENABLE_FLUENT)
            && (byte_of 3 0x80112233 =? 0)
         then 1 else byte_of 3 0x80112233).
Proof.
  apply (SetWindowBlur_colour (two_monitors 5 5) ∅ 100 (ACCENT_OTHER 3) 0x80112233).
  - reflexivity.
  - discriminate.
  - lia.
Defined.

(** * The registry rebuild *)

Section Rebuild.
Variable os : Desktop.

Lemma foldl_bind_taskbars (l : list Window) (g : Globals) :
  taskbars
    (foldl (λ g secondtaskbar,
              set_taskbars g
                (<[monitor os secondtaskbar := (secondtaskbar, REGULAR_APPEARANCE)]>
                   (taskbars g))) g l)
  = foldl (bind_taskbar os) (taskbars g) l.
Proof.
  revert g. induction l as [| s l IH]; intros g; [done |].
  cbn. by rewrite IH.
Qed.

Lemma RefreshHandles_taskbars (g : Globals) :
  taskbars (RefreshHandles os g) = foldl (bind_taskbar os) ∅ (found_taskbars os).
Proof. unfold RefreshHandles. by rewrite foldl_bind_taskbars. Qed.

Lemma bind_all_origin (l : list Window) (t : gmap Z (Z * APPEARANCE))
    (k : Z) (w : Window) (a : APPEARANCE) :
  foldl (bind_taskbar os) t l !! k = Some (w, a) →
  (w ∈ l ∧ k = monitor os w ∧ a = REGULAR_APPEARANCE) ∨ t !! k = Some (w, a).
Proof.
  revert t. induction l as [| s l IH]; intros t H; [by right |].
  cbn in H. apply IH in H as [(Hin & -> & ->) | H].
  - left. split; [apply elem_of_cons; by right | done].
  - unfold bind_taskbar in H.
    destruct (decide (monitor os s = k)) as [<- | Hne].
    + rewrite lookup_insert_eq in H. injection H as <- <-.
      left. split; [apply elem_of_cons; by left | done].
    + rewrite lookup_insert_ne in H by done. by right.
Qed.

Lemma bind_all_other (l : list Window) (t : gmap Z (Z * APPEARANCE)) (k : Z) :
  k ∉ monitor os <$> l → foldl (bind_taskbar os) t l !! k = t !! k.
Proof.
  revert t. induction l as [| s l IH]; intros t Hk; [done |].
  cbn in *. apply not_elem_of_cons in Hk as [Hne Hk].
  rewrite IH by done. unfold bind_taskbar. by rewrite lookup_insert_ne.
Qed.

Lemma bind_all_key (l : list Window) (t : gmap Z (Z * APPEARANCE)) (w : Window) :
  w ∈ l → is_Some (foldl (bind_taskbar os) t l !! monitor os w).
Proof.
  revert t w. induction l as [| s l IH]; intros t w Hin;
    [by apply elem_of_nil in Hin |].
  cbn. destruct (decide (monitor os w ∈ monitor os <$> l)) as [Hl | Hl].
  - apply list_elem_of_fmap in Hl as (w' & -> & Hw'). by apply IH.
  - rewrite bind_all_other by done.
    apply elem_of_cons in Hin as [-> | Hin].
    + unfold bind_taskbar. rewrite lookup_insert_eq. by eexists.
    + exfalso. apply Hl. by apply list_elem_of_fmap_2.
Qed.

Lemma bind_all_exact (l : list Window) (t : gmap Z (Z * APPEARANCE)) (w : Window) :
  NoDup (monitor os <$> l) → w ∈ l →
  foldl (bind_taskbar os) t l !! monitor os w = Some (w, REGULAR_APPEARANCE).
Proof.
  revert t. induction l as [| s l IH]; intros t Hnd Hin;
    [by apply elem_of_nil in Hin |].
  cbn in *. apply NoDup_cons in Hnd as [Hs Hnd].
  apply elem_of_cons in Hin as [-> | Hin].
  - rewrite bind_all_other by done. unfold bind_taskbar.
    by rewrite lookup_insert_eq.
  - by apply IH.
Qed.

(** A window after which no window of the same monitor is inserted is
    the entry of its monitor. *)
Lemma bind_all_last (pre post : list Window) (t : gmap Z (Z * APPEARANCE))
    (w : Window) :
  monitor os w ∉ monitor os <$> post →
  foldl (bind_taskbar os) t (pre ++ w :: post) !! monitor os w
  = Some (w, REGULAR_APPEARANCE).
Proof.
  intros Hpost. rewrite foldl_app. cbn.
  rewrite bind_all_other by done. unfold bind_taskbar.
  by rewrite lookup_insert_eq.
Qed.

(** Every monitor of a window of the list has a last window in it. *)
Lemma last_on_monitor (l : list Window) (k : Z) :
  k ∈ monitor os <$> l →
  ∃ pre w post, l = pre ++ w :: post ∧ monitor os w = k
                ∧ k ∉ monitor os <$> post.
Proof.
  induction l as [| s l IH]; intros Hk; [by apply elem_of_nil in Hk |].
  destruct (decide (k ∈ monitor os <$> l)) as [Hl | Hl].
  - destruct (IH Hl) as (pre & w & post & -> & Hw & Hpost).
    by exists (s :: pre), w, post.
  - cbn in Hk. apply elem_of_cons in Hk as [-> | Hk]; [| done].
    by exists [], s, l.
Qed.

(** C8, amended.  [RefreshHandles] builds [run.taskbars] from nothing but
    the windows its two lookups return, the answer of [Window::Find]
    first and unchecked: the result is the same whatever the map held
    before; every entry binds one of the returned windows, under that
    window's monitor, with the regular appearance; the entries are
    exactly the returned windows after which no window of the same
    monitor is returned; the monitor of every returned window is a key;
    and when the returned windows sit on pairwise different monitors,
    each of them is the entry of its monitor. *)
Theorem RefreshHandles_wholesale (g : Globals) :
  (∀ g' : Globals, taskbars (RefreshHandles os g) = taskbars (RefreshHandles os g'))
  ∧ (∀ k w a, taskbars (RefreshHandles os g) !! k = Some (w, a) →
       w ∈ found_taskbars os ∧ k = monitor os w ∧ a = REGULAR_APPEARANCE)
  ∧ (∀ k w a, taskbars (RefreshHandles os g) !! k = Some (w, a) ↔
       a = REGULAR_APPEARANCE
       ∧ ∃ pre post, found_taskbars os = pre ++ w :: post
                     ∧ k = monitor os w
                     ∧ monitor os w ∉ monitor os <$> post)
  ∧ (∀ w, w ∈ found_taskbars os →
       is_Some (taskbars (RefreshHandles os g) !! monitor os w))
  ∧ (NoDup (monitor os <$> found_taskbars os) →
     ∀ w, w ∈ found_taskbars os →
       taskbars (RefreshHandles os g) !! monitor os w = Some (w, REGULAR_APPEARANCE)).
Proof.
  assert (∀ k w a, taskbars (RefreshHandles os g) !! k = Some (w, a) →
            w ∈ found_taskbars os ∧ k = monitor os w ∧ a = REGULAR_APPEARANCE)
    as Horigin.
  { intros k w a H. rewrite RefreshHandles_taskbars in H.
    apply bind_all_origin in H as [H | H]; [done | by rewrite lookup_empty in H]. }
  split; [| split; [exact Horigin | split; [| split]]].
  - intros g'. by rewrite !RefreshHandles_taskbars.
  - intros k w a. split.
    + intros H. destruct (Horigin k w a H) as (Hin & -> & ->).
      split; [done |].
      destruct (last_on_monitor (found_taskbars os) (monitor os w))
        as (pre & w' & post & Hl & Hw' & Hpost); [by apply list_elem_of_fmap_2 |].
      rewrite RefreshHandles_taskbars, Hl, <- Hw' in H.
      rewrite bind_all_last in H by (by rewrite Hw').
      injection H as ->. by exists pre, post.
    + intros (-> & pre & post & Hl & -> & Hpost).
      rewrite RefreshHandles_taskbars, Hl. by apply bind_all_last.
  - intros w Hw. rewrite RefreshHandles_taskbars. by apply bind_all_key.
  - intros Hnd w Hw. rewrite RefreshHandles_taskbars. by apply bind_all_exact.
Qed.
End Rebuild.

(** Two monitors, then one: the registry built before the change has the
    taskbars 100 and 101, the one built after it has taskbar 100 only. *)
Example rebuild_two_then_one :
  let before := RefreshHandles (two_monitors 5 5) startup in
  let after := RefreshHandles (one_monitor 5 5) before in
  taskbars before = {[1 := (100, REGULAR_APPEARANCE); 2 := (101, REGULAR_APPEARANCE)]}
  ∧ taskbars after = {[1 := (100, REGULAR_APPEARANCE)]}.
Proof. split; apply map_eq; intros k; vm_compute; reflexivity. Qed.

Lemma RefreshHandles_wholesale_witness :
  NoDup (monitor (two_monitors 5 5) <$> found_taskbars (two_monitors 5 5))
  ∧ taskbars (RefreshHandles (two_monitors 5 5) startup) !! 2
    = Some (101, REGULAR_APPEARANCE).
Proof.
  assert (NoDup (monitor (two_monitors 5 5) <$> found_taskbars (two_monitors 5 5)))
    as Hnd by compute_done.
  split; [exact Hnd |].
  destruct (RefreshHandles_wholesale (two_monitors 5 5) startup)
    as (_ & _ & _ & _ & H).
  apply (H Hnd 101). compute_done.
Defined.

(** C8, as stated, fails: the registry need not contain exactly the
    windows the lookups return.  On a monitor with two taskbar windows the
    lookups return 100 and 102, and the rebuilt registry holds 102 alone:
    no entry binds 100.  And while no taskbar exists, the registry holds
    an entry for the null window, which is no taskbar. *)
Lemma RefreshHandles_not_exactly_found :
  found_taskbars stacked_taskbars = [100; 102]
  ∧ taskbars (RefreshHandles stacked_taskbars startup)
    = {[1 := (102, REGULAR_APPEARANCE)]}
  ∧ (∀ k a, taskbars (RefreshHandles stacked_taskbars startup) !! k ≠ Some (100, a))
  ∧ Find_Shell_TrayWnd no_taskbar = NullWindow
  ∧ FindEnum_Shell_SecondaryTrayWnd no_taskbar = []
  ∧ taskbars (RefreshHandles no_taskbar startup) !! 1
    = Some (NullWindow, REGULAR_APPEARANCE).
Proof.
  assert (taskbars (RefreshHandles stacked_taskbars startup)
          = {[1 := (102, REGULAR_APPEARANCE)]}) as Hreg
    by (apply map_eq; intros k; vm_compute; reflexivity).
  split; [reflexivity |]. split; [exact Hreg |]. split.
  - intros k a. rewrite Hreg. intros H.
    apply lookup_singleton_Some in H as [_ H]. discriminate.
  - repeat split; vm_compute; reflexivity.
Qed.

(** [SetTaskbarBlur]'s loop over an empty registry issues nothing. *)
Lemma apply_all_empty (cfg : Config) (os : Desktop) (memo : gmap Z bool) :
  apply_all cfg os ∅ memo = (memo, []).
Proof. unfold apply_all. by rewrite map_to_list_empty. Qed.





(** * The decision pass *)

(** ** The registry keeps its monitors and taskbars *)

Lemma fmap_fst_set_second (a : APPEARANCE) (t : gmap Z (Z * APPEARANCE)) :
  fst <$> (set_second a <$> t) = fst <$> t.
Proof.
  rewrite <- map_fmap_compose. apply map_fmap_ext. by intros i [s b] _.
Qed.

Lemma fmap_fst_alter (a : APPEARANCE) (k : Z) (t : gmap Z (Z * APPEARANCE)) :
  fst <$> alter (set_second a) k t = fst <$> t.
Proof.
  apply map_eq; intros i. rewrite !lookup_fmap, lookup_alter.
  case_decide as Hk; [subst i |]; [| done]. by destruct (t !! k) as [[s b] |].
Qed.

Lemma set_second_fmap_ext (a : APPEARANCE) (t1 t2 : gmap Z (Z * APPEARANCE)) :
  fst <$> t1 = fst <$> t2 → set_second a <$> t1 = set_second a <$> t2.
Proof.
  intros H. apply map_eq; intros i.
  apply (f_equal (λ m, m !! i)) in H. rewrite !lookup_fmap in *.
  destruct (t1 !! i) as [[s1 b1] |], (t2 !! i) as [[s2 b2] |];
    simplify_eq/=; done.
Qed.

Lemma is_Some_surfaces (t1 t2 : gmap Z (Z * APPEARANCE)) (k : Z) :
  fst <$> t1 = fst <$> t2 → is_Some (t1 !! k) ↔ is_Some (t2 !! k).
Proof.
  intros H. apply (f_equal (λ m, m !! k)) in H. rewrite !lookup_fmap in H.
  rewrite <- (fmap_is_Some fst (t1 !! k)), <- (fmap_is_Some fst (t2 !! k)).
  by rewrite H.
Qed.

Lemma maximised_on_taskbar_monitor_ext (os : Desktop)
    (t1 t2 : gmap Z (Z * APPEARANCE)) (w : Window) :
  fst <$> t1 = fst <$> t2 →
  maximised_on_taskbar_monitor os t1 w = maximised_on_taskbar_monitor os t2 w.
Proof.
  intros H. unfold maximised_on_taskbar_monitor. f_equal.
  apply bool_decide_ext. by apply is_Some_surfaces.
Qed.

Lemma counts_as_maximised_iff (os : Desktop) (t : gmap Z (Z * APPEARANCE))
    (w : Window) :
  maximised_on_taskbar_monitor os t w = true ↔ counts_as_maximised os t w.
Proof.
  unfold maximised_on_taskbar_monitor, counts_as_maximised.
  rewrite !andb_true_iff, !negb_true_iff, Z.eqb_eq, bool_decide_eq_true.
  tauto.
Qed.

(** ** [EnumWindowsProcess] and [EnumWindows] *)

Lemma EnumWindowsProcess_taskbars (cfg : Config) (os : Desktop)
    (g : Globals) (w : Window) :
  taskbars (EnumWindowsProcess cfg os g w)
  = if maximised_on_taskbar_monitor os (taskbars g) w && MAXIMISED_ENABLED cfg
    then alter (set_second MAXIMISED_APPEARANCE) (monitor os w) (taskbars g)
    else taskbars g.
Proof.
  unfold EnumWindowsProcess. cbn.
  destruct (maximised_on_taskbar_monitor os (taskbars g) w); cbn; [| done].
  destruct (MAXIMISED_ENABLED cfg); cbn; repeat (case_match; cbn); done.
Qed.

Lemma EnumWindowsProcess_flags (cfg : Config) (os : Desktop)
    (g : Globals) (w : Window) :
  peek_active (EnumWindowsProcess cfg os g w) = peek_active g
  ∧ start_opened (EnumWindowsProcess cfg os g w) = start_opened g
  ∧ hwnd (EnumWindowsProcess cfg os g w) = w.
Proof.
  unfold EnumWindowsProcess. cbn. repeat (case_match; cbn); done.
Qed.

Lemma EnumWindowsProcess_surfaces (cfg : Config) (os : Desktop)
    (g : Globals) (w : Window) :
  fst <$> taskbars (EnumWindowsProcess cfg os g w) = fst <$> taskbars g.
Proof.
  rewrite EnumWindowsProcess_taskbars.
  destruct (_ && _); [apply fmap_fst_alter | done].
Qed.

Lemma scan_surfaces (cfg : Config) (os : Desktop) (ws : list Window) (g : Globals) :
  fst <$> taskbars (foldl (EnumWindowsProcess cfg os) g ws) = fst <$> taskbars g.
Proof.
  revert g. induction ws as [| w ws IH]; intros g; [done |].
  cbn. by rewrite IH, EnumWindowsProcess_surfaces.
Qed.

Lemma scan_flags (cfg : Config) (os : Desktop) (ws : list Window) (g : Globals) :
  peek_active (foldl (EnumWindowsProcess cfg os) g ws) = peek_active g
  ∧ start_opened (foldl (EnumWindowsProcess cfg os) g ws) = start_opened g.
Proof.
  revert g. induction ws as [| w ws IH]; intros g; [done |].
  cbn. destruct (IH (EnumWindowsProcess cfg os g w)) as [-> ->].
  by destruct (EnumWindowsProcess_flags cfg os g w) as (-> & -> & _).
Qed.

Lemma existsb_pointwise {A : Type} (f h : A → bool) (l : list A) :
  (∀ x, f x = h x) → existsb f l = existsb h l.
Proof. intros E. induction l as [| x l IH]; cbn; [done |]. by rewrite E, IH. Qed.

(** After the scan, a taskbar is maximised when some enumerated window
    counted for its monitor, and keeps its appearance otherwise. *)
Lemma scan_lookup (cfg : Config) (os : Desktop) (ws : list Window)
    (g : Globals) (k : Z) :
  MAXIMISED_ENABLED cfg = true →
  taskbars (foldl (EnumWindowsProcess cfg os) g ws) !! k
  = (λ p, (p.1, if existsb (λ w, maximised_on_taskbar_monitor os (taskbars g) w
                                 && (monitor os w =? k)) ws
                then MAXIMISED_APPEARANCE else p.2)) <$> taskbars g !! k.
Proof.
  intros Hen. revert g. induction ws as [| w ws IH]; intros g.
  - cbn. by destruct (taskbars g !! k) as [[s a] |].
  - cbn [foldl existsb]. rewrite IH.
    rewrite (existsb_pointwise _
               (λ w, maximised_on_taskbar_monitor os (taskbars g) w
                     && (monitor os w =? k)))
      by (intros x; f_equal; apply maximised_on_taskbar_monitor_ext,
                               EnumWindowsProcess_surfaces).
    rewrite EnumWindowsProcess_taskbars, Hen, andb_true_r.
    destruct (maximised_on_taskbar_monitor os (taskbars g) w); cbn [andb orb];
      [| done].
    rewrite lookup_alter. destruct (decide (monitor os w = k)) as [Heq | Hne].
    + rewrite (proj2 (Z.eqb_eq _ _) Heq). subst k.
      destruct (taskbars g !! monitor os w) as [[s a] |]; cbn; [| done].
      by destruct (existsb _ ws).
    + by rewrite (proj2 (Z.eqb_neq _ _) Hne).
Qed.

(** C3.  With the maximised feature enabled: a window that counts
    (visible, maximised, not cloaked, not blacklisted, on the current
    desktop, on a monitor of the registry) makes [EnumWindowsProcess]
    assign the maximised appearance to the taskbar of its monitor; a window
    that does not count leaves the registry as it is; and after the whole
    scan a taskbar that was not maximised before is maximised if and only
    if some enumerated window on its monitor counts, and has its former
    appearance otherwise, however many windows count. *)
Theorem EnumWindows_maximised (cfg : Config) (os : Desktop) :
  MAXIMISED_ENABLED cfg = true →
  (∀ g w, counts_as_maximised os (taskbars g) w →
     taskbars (EnumWindowsProcess cfg os g w)
     = alter (set_second MAXIMISED_APPEARANCE) (monitor os w) (taskbars g))
  ∧ (∀ g w, ¬ counts_as_maximised os (taskbars g) w →
     taskbars (EnumWindowsProcess cfg os g w) = taskbars g)
  ∧ (∀ g k surface a,
       taskbars g !! k = Some (surface, a) → a ≠ MAXIMISED_APPEARANCE →
       (taskbars (EnumWindows cfg os g) !! k = Some (surface, MAXIMISED_APPEARANCE)
        ↔ ∃ w, w ∈ EnumWindows_order os ∧ monitor os w = k
               ∧ counts_as_maximised os (taskbars g) w)
       ∧ (taskbars (EnumWindows cfg os g) !! k = Some (surface, MAXIMISED_APPEARANCE)
          ∨ taskbars (EnumWindows cfg os g) !! k = Some (surface, a))).
Proof.
  intros Hen. split; [| split].
  - intros g w Hw. apply counts_as_maximised_iff in Hw.
    by rewrite EnumWindowsProcess_taskbars, Hw, Hen.
  - intros g w Hw. rewrite EnumWindowsProcess_taskbars.
    destruct (maximised_on_taskbar_monitor os (taskbars g) w) eqn:E; [| done].
    by apply counts_as_maximised_iff in E.
  - intros g k surface a Hk Ha. unfold EnumWindows.
    rewrite scan_lookup, Hk by done. cbn.
    destruct (existsb _ _) eqn:E.
    + split; [| by left]. split; [intros _ | done].
      apply existsb_exists in E as (w & Hin & [Hw Hm%Z.eqb_eq]%andb_true_iff).
      exists w. split; [by apply list_elem_of_In |].
      split; [done | by apply counts_as_maximised_iff].
    + split; [| by right]. split; [intros [= ->]; done |].
      intros (w & Hin & Hm & Hw). exfalso.
      assert (existsb (λ w, maximised_on_taskbar_monitor os (taskbars g) w
                            && (monitor os w =? k)) (EnumWindows_order os) = true)
        as E'; [| congruence].
      apply existsb_exists. exists w. split; [by apply list_elem_of_In |].
      apply andb_true_iff. split; [by apply counts_as_maximised_iff | by apply Z.eqb_eq].
Qed.

Lemma EnumWindows_maximised_witness :
  taskbars (EnumWindows all_enabled (two_monitors 6 6) (first_cycle (two_monitors 6 6))) !! 1
  = Some (100, MAXIMISED_APPEARANCE).
Proof.
  destruct (EnumWindows_maximised all_enabled (two_monitors 6 6) eq_refl)
    as (_ & _ & H).
  apply (H (first_cycle (two_monitors 6 6)) 1 100 REGULAR_APPEARANCE).
  - vm_compute. reflexivity.
  - discriminate.
  - exists 5. split; [compute_done |]. split; [reflexivity |].
    repeat split; try reflexivity. vm_compute. by eexists.
Defined.

(** ** The rules after the scan *)

Lemma set_at_twice (os : Desktop) (fg : Window) (a b : APPEARANCE) (g : Globals) :
  set_at os fg a (set_at os fg b g) = set_at os fg a g.
Proof.
  unfold set_at, set_taskbars. cbn. f_equal.
  rewrite alter_alter_eq. apply alter_ext. by intros [s c] _.
Qed.

(** Lines 340-364 taken together: whatever lines 340-355 assign is
    overwritten by lines 357-364. *)
Lemma foreground_rule_taskbars (cfg : Config) (os : Desktop) (window : Window)
    (g : Globals) :
  taskbars (foreground_rule cfg os window g)
  = if negb (ForegroundWindow os =? NullWindow)
       && bool_decide (is_Some (taskbars g !! monitor os (ForegroundWindow os)))
       && maximised_on_taskbar_monitor os (taskbars g) window
    then alter (set_second (if START_ENABLED cfg && start_opened g
                            then MAXIMISED_APPEARANCE else START_APPEARANCE))
           (monitor os (ForegroundWindow os)) (taskbars g)
    else taskbars g.
Proof.
  unfold foreground_rule.
  destruct (negb _ && bool_decide _); cbn [andb]; [| done].
  destruct (maximised_on_taskbar_monitor os (taskbars g) window); [| done].
  assert (∀ g', start_opened g' = start_opened g →
            (g' = g ∨ ∃ b, g' = set_at os (ForegroundWindow os) b g) →
            taskbars (if START_ENABLED cfg && start_opened g'
                      then set_at os (ForegroundWindow os) MAXIMISED_APPEARANCE g'
                      else set_at os (ForegroundWindow os) START_APPEARANCE g')
            = alter (set_second (if START_ENABLED cfg && start_opened g
                                 then MAXIMISED_APPEARANCE else START_APPEARANCE))
                (monitor os (ForegroundWindow os)) (taskbars g)) as Hlast.
  { intros g' -> [-> | [b ->]]; destruct (START_ENABLED cfg && _);
      rewrite ?set_at_twice; done. }
  destruct (CORTANA_ENABLED cfg && negb (start_opened g)
            && negb (cloaked os (ForegroundWindow os)));
    destruct (is_search (filename os (ForegroundWindow os)));
    apply Hlast; eauto.
Qed.

Lemma foreground_rule_flags (cfg : Config) (os : Desktop) (window : Window)
    (g : Globals) :
  peek_active (foreground_rule cfg os window g) = peek_active g
  ∧ start_opened (foreground_rule cfg os window g) = start_opened g.
Proof. unfold foreground_rule. repeat (case_match; cbn); done. Qed.

Lemma foreground_rule_surfaces (cfg : Config) (os : Desktop) (window : Window)
    (g : Globals) :
  fst <$> taskbars (foreground_rule cfg os window g) = fst <$> taskbars g.
Proof.
  rewrite foreground_rule_taskbars.
  destruct (_ && _); [apply fmap_fst_alter | done].
Qed.

Lemma peek_rule_taskbars (cfg : Config) (g : Globals) :
  taskbars (peek_rule cfg g)
  = if MAXIMISED_ENABLED cfg && MAXIMISED_REGULAR_ON_PEEK cfg && peek_active g
    then set_second REGULAR_APPEARANCE <$> taskbars g
    else taskbars g.
Proof. unfold peek_rule. by destruct (_ && _). Qed.

Lemma timeline_rule_taskbars (cfg : Config) (os : Desktop) (g : Globals) :
  taskbars (timeline_rule cfg os g)
  = if timeline_fires cfg os
    then set_second TIMELINE_APPEARANCE <$> taskbars g
    else taskbars g.
Proof.
  unfold timeline_rule, timeline_fires.
  destruct (negb _); cbn [andb]; [| done]. by destruct (_ && _).
Qed.

(** ** The pass as a whole *)

Lemma decision_pass_eq (cfg : Config) (os : Desktop) (window : Window) (g : Globals) :
  decision_pass cfg os window g
  = set_counter (timeline_rule cfg os (peek_rule cfg (before_peek_rule cfg os window g))) 0.
Proof. reflexivity. Qed.

Lemma scanned_surfaces (cfg : Config) (os : Desktop) (g : Globals) :
  fst <$> taskbars (scanned cfg os g) = fst <$> taskbars g.
Proof.
  unfold scanned, EnumWindows. destruct (_ || _).
  - rewrite scan_surfaces. apply fmap_fst_set_second.
  - apply fmap_fst_set_second.
Qed.

Lemma scanned_flags (cfg : Config) (os : Desktop) (g : Globals) :
  peek_active (scanned cfg os g) = peek_active g
  ∧ start_opened (scanned cfg os g) = start_opened g.
Proof.
  unfold scanned, EnumWindows. destruct (_ || _); [| done].
  by destruct (scan_flags cfg os (EnumWindows_order os)
                 (set_all REGULAR_APPEARANCE
                    (set_should_show_peek g (bool_decide (PEEK cfg = Enabled)))))
    as [-> ->].
Qed.

Lemma before_peek_rule_surfaces (cfg : Config) (os : Desktop) (window : Window)
    (g : Globals) :
  fst <$> taskbars (before_peek_rule cfg os window g) = fst <$> taskbars g.
Proof.
  unfold before_peek_rule. by rewrite foreground_rule_surfaces, scanned_surfaces.
Qed.

Lemma before_peek_rule_flags (cfg : Config) (os : Desktop) (window : Window)
    (g : Globals) :
  peek_active (before_peek_rule cfg os window g) = peek_active g
  ∧ start_opened (before_peek_rule cfg os window g) = start_opened g.
Proof.
  unfold before_peek_rule.
  destruct (foreground_rule_flags cfg os window (scanned cfg os g)) as [-> ->].
  apply scanned_flags.
Qed.

Lemma set_second_twice (a b : APPEARANCE) (t : gmap Z (Z * APPEARANCE)) :
  set_second a <$> (set_second b <$> t) = set_second a <$> t.
Proof. apply set_second_fmap_ext, fmap_fst_set_second. Qed.

Lemma lookup_set_second (a : APPEARANCE) (t : gmap Z (Z * APPEARANCE))
    (k : Z) (surface : Window) (b : APPEARANCE) :
  t !! k = Some (surface, b) → (set_second a <$> t) !! k = Some (surface, a).
Proof. intros H. by rewrite lookup_fmap, H. Qed.

(** With the peek override and the Timeline rule both taken into account:
    the registry after the pass when the peek override applies. *)
Lemma decision_pass_peek (cfg : Config) (os : Desktop) (window : Window)
    (g : Globals) :
  MAXIMISED_ENABLED cfg = true → MAXIMISED_REGULAR_ON_PEEK cfg = true →
  peek_active g = true →
  taskbars (peek_rule cfg (before_peek_rule cfg os window g))
  = set_second REGULAR_APPEARANCE <$> taskbars g
  ∧ taskbars (decision_pass cfg os window g)
    = set_second (if timeline_fires cfg os
                  then TIMELINE_APPEARANCE else REGULAR_APPEARANCE) <$> taskbars g.
Proof.
  intros Hmax Hreg Hpeek.
  assert (taskbars (peek_rule cfg (before_peek_rule cfg os window g))
          = set_second REGULAR_APPEARANCE <$> taskbars g) as Hp.
  { rewrite peek_rule_taskbars, Hmax, Hreg.
    destruct (before_peek_rule_flags cfg os window g) as [-> _].
    rewrite Hpeek. cbn. apply set_second_fmap_ext, before_peek_rule_surfaces. }
  split; [done |].
  rewrite decision_pass_eq. cbn. rewrite timeline_rule_taskbars, Hp.
  destruct (timeline_fires cfg os); [apply set_second_twice | done].
Qed.

Lemma decision_pass_timeline (cfg : Config) (os : Desktop) (window : Window)
    (g : Globals) :
  timeline_fires cfg os = true →
  taskbars (decision_pass cfg os window g)
  = set_second TIMELINE_APPEARANCE <$> taskbars g.
Proof.
  intros Hfire. rewrite decision_pass_eq. cbn.
  rewrite timeline_rule_taskbars, Hfire.
  apply set_second_fmap_ext.
  rewrite <- (before_peek_rule_surfaces cfg os window g).
  rewrite peek_rule_taskbars. destruct (_ && _); [apply fmap_fst_set_second | done].
Qed.

(** C4, as stated, fails: with the maximised feature and regular-on-peek
    enabled and Aero Peek active, the pass gives the Timeline appearance,
    not the regular one, when the task view is in the foreground. *)
Lemma peek_does_not_force_regular :
  MAXIMISED_ENABLED all_enabled = true
  ∧ MAXIMISED_REGULAR_ON_PEEK all_enabled = true
  ∧ peek_active peeking_at_task_view = true
  ∧ counts_as_maximised task_view_desktop (taskbars peeking_at_task_view) 5
  ∧ monitor task_view_desktop 5 = 1
  ∧ taskbars (SetTaskbarBlur all_enabled task_view_desktop peeking_at_task_view).1 !! 1
    = Some (100, TIMELINE_APPEARANCE)
  ∧ taskbars (SetTaskbarBlur all_enabled task_view_desktop peeking_at_task_view).1 !! 1
    ≠ Some (100, REGULAR_APPEARANCE).
Proof.
  assert (taskbars (SetTaskbarBlur all_enabled task_view_desktop peeking_at_task_view).1 !! 1
          = Some (100, TIMELINE_APPEARANCE)) as H by (vm_compute; reflexivity).
  split; [reflexivity |]. split; [reflexivity |]. split; [reflexivity |].
  split; [repeat split; try reflexivity; vm_compute; by eexists |].
  split; [reflexivity |]. split; [exact H |].
  rewrite H. discriminate.
Qed.

(** C4, amended.  With the maximised feature and regular-on-peek enabled
    and [peek_active] set, the peek override leaves every taskbar of the
    registry with the regular appearance, whatever the scan and the
    Start/Cortana rule assigned; after the whole pass the appearance is the
    regular one unless the Timeline rule fires, in which case it is the
    Timeline one; it is never the maximised, Start or Cortana one. *)
Theorem peek_forces_regular (cfg : Config) (os : Desktop) (window : Window)
    (g : Globals) (k : Z) (surface : Window) (a : APPEARANCE) :
  MAXIMISED_ENABLED cfg = true → MAXIMISED_REGULAR_ON_PEEK cfg = true →
  peek_active g = true →
  taskbars g !! k = Some (surface, a) →
  taskbars (peek_rule cfg (before_peek_rule cfg os window g)) !! k
  = Some (surface, REGULAR_APPEARANCE)
  ∧ taskbars (decision_pass cfg os window g) !! k
    = Some (surface, if timeline_fires cfg os
                     then TIMELINE_APPEARANCE else REGULAR_APPEARANCE)
  ∧ taskbars (decision_pass cfg os window g) !! k ≠ Some (surface, MAXIMISED_APPEARANCE)
  ∧ taskbars (decision_pass cfg os window g) !! k ≠ Some (surface, START_APPEARANCE)
  ∧ taskbars (decision_pass cfg os window g) !! k ≠ Some (surface, CORTANA_APPEARANCE).
Proof.
  intros Hmax Hreg Hpeek Hk.
  destruct (decision_pass_peek cfg os window g Hmax Hreg Hpeek) as [-> ->].
  rewrite !(lookup_set_second _ _ _ _ _ Hk).
  repeat split; try done; destruct (timeline_fires cfg os); discriminate.
Qed.

Lemma peek_forces_regular_witness :
  taskbars (peek_rule all_enabled
              (before_peek_rule all_enabled task_view_desktop 0 peeking_at_task_view)) !! 1
  = Some (100, REGULAR_APPEARANCE)
  ∧ taskbars (decision_pass all_enabled task_view_desktop 0 peeking_at_task_view) !! 1
    = Some (100, if timeline_fires all_enabled task_view_desktop
                 then TIMELINE_APPEARANCE else REGULAR_APPEARANCE)
  ∧ taskbars (decision_pass all_enabled task_view_desktop 0 peeking_at_task_view) !! 1
    ≠ Some (100, MAXIMISED_APPEARANCE)
  ∧ taskbars (decision_pass all_enabled task_view_desktop 0 peeking_at_task_view) !! 1
    ≠ Some (100, START_APPEARANCE)
  ∧ taskbars (decision_pass all_enabled task_view_desktop 0 peeking_at_task_view) !! 1
    ≠ Some (100, CORTANA_APPEARANCE).
Proof.
  apply (peek_forces_regular all_enabled task_view_desktop 0 peeking_at_task_view
           1 100 REGULAR_APPEARANCE).
  - reflexivity.
  - reflexivity.
  - reflexivity.
  - vm_compute. reflexivity.
Defined.

Example IgnoreCaseStringEquals_sample :
  IgnoreCaseStringEquals "explorer.EXE" "Explorer.exe" = true
  ∧ IgnoreCaseStringEquals "searchui.exe" "SearchUI.exe" = true
  ∧ IgnoreCaseStringEquals "SearchApp.exe" "SearchUI.exe" = false.
Proof. repeat split. Qed.

(** C5.  With the Timeline feature enabled and a foreground window that
    has the task-view signature (on builds with Timeline: the core window
    class and the file name Explorer.exe up to case; on older builds: the
    class MultitaskingViewFrame), the pass leaves every taskbar of the
    registry with the Timeline appearance, whatever the scan, the
    Start/Cortana rule and the peek override assigned. *)
Theorem timeline_overrides (cfg : Config) (os : Desktop) (window : Window)
    (g : Globals) :
  TIMELINE_ENABLED cfg = true →
  ForegroundWindow os ≠ NullWindow →
  (if timeline_av os
   then classname os (ForegroundWindow os) = CORE_WINDOW os
        ∧ IgnoreCaseStringEquals (filename os (ForegroundWindow os)) "Explorer.exe" = true
   else classname os (ForegroundWindow os) = "MultitaskingViewFrame") →
  taskbars (decision_pass cfg os window g)
  = set_second TIMELINE_APPEARANCE <$> taskbars g
  ∧ ∀ k surface a,
      taskbars g !! k = Some (surface, a) →
      taskbars (decision_pass cfg os window g) !! k
      = Some (surface, TIMELINE_APPEARANCE).
Proof.
  intros Hen Hfg Hsig.
  assert (timeline_fires cfg os = true) as Hfire.
  { unfold timeline_fires, is_timeline. rewrite Hen.
    rewrite (proj2 (Z.eqb_neq _ _) Hfg). cbn.
    destruct (timeline_av os).
    - destruct Hsig as [-> ->]. by rewrite String.eqb_refl.
    - rewrite Hsig. apply String.eqb_refl. }
  rewrite (decision_pass_timeline cfg os window g Hfire).
  split; [done |]. intros k surface a Hk. by apply (lookup_set_second _ _ _ _ a).
Qed.

Lemma timeline_overrides_witness :
  taskbars (decision_pass all_enabled modern_task_view_desktop 0
              (first_cycle modern_task_view_desktop))
  = set_second TIMELINE_APPEARANCE <$> taskbars (first_cycle modern_task_view_desktop)
  ∧ ∀ k surface a,
      taskbars (first_cycle modern_task_view_desktop) !! k = Some (surface, a) →
      taskbars (decision_pass all_enabled modern_task_view_desktop 0
                  (first_cycle modern_task_view_desktop)) !! k
      = Some (surface, TIMELINE_APPEARANCE).
Proof.
  apply (timeline_overrides all_enabled modern_task_view_desktop 0
           (first_cycle modern_task_view_desktop)).
  - reflexivity.
  - discriminate.
  - split; reflexivity.
Defined.

(** ** What the pass depends on *)

Lemma EnumWindowsProcess_same_view (cfg : Config) (os : Desktop)
    (g1 g2 : Globals) (w : Window) :
  same_view g1 g2 →
  same_view (EnumWindowsProcess cfg os g1 w) (EnumWindowsProcess cfg os g2 w).
Proof.
  intros (Ht & Hp & Hs). unfold same_view.
  rewrite !EnumWindowsProcess_taskbars, Ht.
  destruct (EnumWindowsProcess_flags cfg os g1 w) as (-> & -> & _).
  by destruct (EnumWindowsProcess_flags cfg os g2 w) as (-> & -> & _).
Qed.

Lemma scan_same_view (cfg : Config) (os : Desktop) (ws : list Window)
    (g1 g2 : Globals) :
  same_view g1 g2 →
  same_view (foldl (EnumWindowsProcess cfg os) g1 ws)
            (foldl (EnumWindowsProcess cfg os) g2 ws).
Proof.
  revert g1 g2. induction ws as [| w ws IH]; intros g1 g2 H; [done |].
  cbn. by apply IH, EnumWindowsProcess_same_view.
Qed.

Lemma scanned_same_view (cfg : Config) (os : Desktop) (g1 g2 : Globals) :
  fst <$> taskbars g1 = fst <$> taskbars g2 →
  peek_active g1 = peek_active g2 → start_opened g1 = start_opened g2 →
  same_view (scanned cfg os g1) (scanned cfg os g2).
Proof.
  intros Ht Hp Hs.
  assert (same_view
            (set_all REGULAR_APPEARANCE
               (set_should_show_peek g1 (bool_decide (PEEK cfg = Enabled))))
            (set_all REGULAR_APPEARANCE
               (set_should_show_peek g2 (bool_decide (PEEK cfg = Enabled)))))
    as H0 by (repeat split; cbn; [by apply set_second_fmap_ext | done | done]).
  unfold scanned, EnumWindows. destruct (_ || _); [| done].
  by apply scan_same_view.
Qed.

Lemma foreground_rule_same_view (cfg : Config) (os : Desktop) (window : Window)
    (g1 g2 : Globals) :
  same_view g1 g2 →
  same_view (foreground_rule cfg os window g1) (foreground_rule cfg os window g2).
Proof.
  intros (Ht & Hp & Hs). unfold same_view.
  rewrite !foreground_rule_taskbars, Ht, Hs.
  destruct (foreground_rule_flags cfg os window g1) as (-> & ->).
  by destruct (foreground_rule_flags cfg os window g2) as (-> & ->).
Qed.

Lemma decision_pass_same_view (cfg : Config) (os : Desktop) (window : Window)
    (g1 g2 : Globals) :
  fst <$> taskbars g1 = fst <$> taskbars g2 →
  peek_active g1 = peek_active g2 → start_opened g1 = start_opened g2 →
  taskbars (decision_pass cfg os window g1) = taskbars (decision_pass cfg os window g2).
Proof.
  intros Ht Hp Hs. rewrite !decision_pass_eq. cbn.
  destruct (foreground_rule_same_view cfg os window _ _
              (scanned_same_view cfg os g1 g2 Ht Hp Hs)) as (Ht' & Hp' & _).
  fold (before_peek_rule cfg os window g1) in Ht', Hp'.
  fold (before_peek_rule cfg os window g2) in Ht', Hp'.
  by rewrite !timeline_rule_taskbars, !peek_rule_taskbars, Ht', Hp'.
Qed.

(** C9, as stated, fails: two states with the same registry, the same
    flags and the same counter, on the same desktop and under the same
    configuration, get different appearances for monitor 1 because the
    global [hwnd] differs; the second value of [hwnd] is the one the first
    pass leaves behind. *)
Lemma decision_depends_on_hwnd :
  taskbars (set_hwnd (first_cycle search_desktop) 5) = taskbars (first_cycle search_desktop)
  ∧ peek_active (set_hwnd (first_cycle search_desktop) 5)
    = peek_active (first_cycle search_desktop)
  ∧ start_opened (set_hwnd (first_cycle search_desktop) 5)
    = start_opened (first_cycle search_desktop)
  ∧ counter (set_hwnd (first_cycle search_desktop) 5) = counter (first_cycle search_desktop)
  ∧ hwnd (SetTaskbarBlur all_enabled search_desktop (first_cycle search_desktop)).1 = 5
  ∧ taskbars (SetTaskbarBlur all_enabled search_desktop (first_cycle search_desktop)).1 !! 1
    = Some (100, MAXIMISED_APPEARANCE)
  ∧ taskbars (SetTaskbarBlur all_enabled search_desktop
                (set_hwnd (first_cycle search_desktop) 5)).1 !! 1
    = Some (100, START_APPEARANCE).
Proof. repeat split; vm_compute; reflexivity. Qed.

(** C9, amended.  The appearances a decision pass assigns are a function
    of the monitors and taskbars of the registry, the desktop as the
    queries report it, the two flags, the configuration and the global
    [hwnd] left by the previous enumeration: two states that agree on
    these get the same registry, whatever appearances, counter value (from
    10 on), peek decision or dispatcher memo they start from. *)
Theorem decision_deterministic (cfg : Config) (os : Desktop) (g1 g2 : Globals) :
  fst <$> taskbars g1 = fst <$> taskbars g2 →
  peek_active g1 = peek_active g2 →
  start_opened g1 = start_opened g2 →
  hwnd g1 = hwnd g2 →
  10 ≤ counter g1 → 10 ≤ counter g2 →
  taskbars (SetTaskbarBlur cfg os g1).1 = taskbars (SetTaskbarBlur cfg os g2).1.
Proof.
  intros Ht Hp Hs Hh Hc1 Hc2. unfold SetTaskbarBlur. cbn.
  rewrite (proj2 (Z.leb_le _ _) Hc1), (proj2 (Z.leb_le _ _) Hc2), Hh.
  by apply decision_pass_same_view.
Qed.

Lemma decision_deterministic_witness :
  taskbars (SetTaskbarBlur all_enabled search_desktop search_in_foreground).1
  = taskbars (SetTaskbarBlur all_enabled search_desktop
                (set_hwnd (first_cycle search_desktop) 5)).1.
Proof.
  apply (decision_deterministic all_enabled search_desktop search_in_foreground
           (set_hwnd (first_cycle search_desktop) 5)).
  - apply map_eq. intros k. vm_compute. reflexivity.
  - reflexivity.
  - reflexivity.
  - reflexivity.
  - vm_compute. discriminate.
  - vm_compute. discriminate.
Defined.

(** ** The Start/Cortana rule *)

(** The appearance lines 333-366 leave on the foreground monitor when
    their guards hold: the maximised one if Start integration is enabled
    and the start menu is open, the Start one otherwise.  The assignments
    of lines 345 and 353 never survive. *)
Lemma foreground_rule_lookup (cfg : Config) (os : Desktop) (window : Window)
    (g : Globals) (surface : Window) (a : APPEARANCE) :
  ForegroundWindow os ≠ NullWindow →
  taskbars g !! monitor os (ForegroundWindow os) = Some (surface, a) →
  counts_as_maximised os (taskbars g) window →
  taskbars (foreground_rule cfg os window g) !! monitor os (ForegroundWindow os)
  = Some (surface, if START_ENABLED cfg && start_opened g
                   then MAXIMISED_APPEARANCE else START_APPEARANCE).
Proof.
  intros Hfg Hk Hw. rewrite foreground_rule_taskbars.
  rewrite (proj2 (Z.eqb_neq _ _) Hfg).
  rewrite bool_decide_eq_true_2 by (by eexists).
  rewrite (proj2 (counts_as_maximised_iff _ _ _) Hw). cbn.
  by rewrite lookup_alter_eq, Hk.
Qed.

(** C1.  The search window is in the foreground, maximised, visible, not
    blacklisted, not cloaked, on the current desktop and on a monitor of
    the registry; search integration is enabled and the start menu is
    closed; [hwnd] is this very window.  The pass assigns the Start
    appearance to its monitor, not the Cortana one. *)
Theorem search_window_gets_start :
  ForegroundWindow search_desktop = 5
  ∧ ForegroundWindow search_desktop ≠ NullWindow
  ∧ counts_as_maximised search_desktop (taskbars search_in_foreground) 5
  ∧ monitor search_desktop 5 = 1
  ∧ is_search (filename search_desktop 5) = true
  ∧ CORTANA_ENABLED all_enabled = true
  ∧ start_opened search_in_foreground = false
  ∧ cloaked search_desktop 5 = false
  ∧ hwnd search_in_foreground = 5
  ∧ counter search_in_foreground = 10
  ∧ taskbars (before_peek_rule all_enabled search_desktop
                (hwnd search_in_foreground) search_in_foreground) !! 1
    = Some (100, START_APPEARANCE)
  ∧ taskbars (SetTaskbarBlur all_enabled search_desktop search_in_foreground).1 !! 1
    = Some (100, START_APPEARANCE).
Proof.
  split; [reflexivity |]. split; [discriminate |].
  split; [repeat split; try reflexivity; vm_compute; by eexists |].
  repeat split; vm_compute; reflexivity.
Qed.

(** No decision pass leaves the Cortana appearance on any taskbar. *)
Lemma decision_pass_never_cortana (cfg : Config) (os : Desktop) (window : Window)
    (g : Globals) (k : Z) (surface : Window) :
  taskbars (decision_pass cfg os window g) !! k ≠ Some (surface, CORTANA_APPEARANCE).
Proof.
  set (clean := λ t : gmap Z (Z * APPEARANCE),
         ∀ k s, t !! k ≠ Some (s, CORTANA_APPEARANCE)).
  assert (∀ a t, a ≠ CORTANA_APPEARANCE → clean (set_second a <$> t)) as Hall.
  { intros a t Ha i s. rewrite lookup_fmap.
    destruct (t !! i) as [[s' b] |]; unfold set_second; intros ?; by simplify_eq/=. }
  assert (∀ a i t, a ≠ CORTANA_APPEARANCE → clean t →
            clean (alter (set_second a) i t)) as Halter.
  { intros a i t Ha Ht j s. rewrite lookup_alter. case_decide; [| apply Ht].
    destruct (t !! i) as [[s' b] |]; unfold set_second; intros ?; by simplify_eq/=. }
  assert (∀ ws g0, clean (taskbars g0) →
            clean (taskbars (foldl (EnumWindowsProcess cfg os) g0 ws))) as Hscan.
  { induction ws as [| w ws IH]; intros g0 H0; [done |].
    cbn. apply IH. rewrite EnumWindowsProcess_taskbars.
    destruct (_ && _); [by apply Halter | done]. }
  assert (clean (taskbars (scanned cfg os g))) as H1.
  { unfold scanned, EnumWindows. destruct (_ || _); [apply Hscan |]; by apply Hall. }
  assert (clean (taskbars (before_peek_rule cfg os window g))) as H2.
  { unfold before_peek_rule. rewrite foreground_rule_taskbars.
    destruct (_ && _); [| done]. apply Halter; [| done].
    by destruct (START_ENABLED cfg && _). }
  rewrite decision_pass_eq. cbn.
  rewrite timeline_rule_taskbars, peek_rule_taskbars.
  destruct (timeline_fires cfg os); [by apply Hall |].
  destruct (_ && _); [by apply Hall | apply H2].
Qed.

(** * A run on two monitors *)

(** No window counts as maximised: both taskbars are regular.  Once the
    maximised window 5 is on monitor 1, that taskbar becomes maximised
    while the taskbar of monitor 2 stays regular. *)
Example two_monitors_scenario :
  taskbars (SetTaskbarBlur all_enabled quiet_desktop (first_cycle quiet_desktop)).1
  = {[1 := (100, REGULAR_APPEARANCE); 2 := (101, REGULAR_APPEARANCE)]}
  ∧ taskbars (SetTaskbarBlur all_enabled (two_monitors 6 6)
                (SetTaskbarBlur all_enabled quiet_desktop
                   (first_cycle quiet_desktop)).1).1
    = {[1 := (100, REGULAR_APPEARANCE); 2 := (101, REGULAR_APPEARANCE)]}
  ∧ taskbars (run_cycles 12 all_enabled (two_monitors 6 6)
                (first_cycle quiet_desktop))
    = {[1 := (100, MAXIMISED_APPEARANCE); 2 := (101, REGULAR_APPEARANCE)]}.
Proof. repeat split; apply map_eq; intros k; vm_compute; reflexivity. Qed.

(** The same desktop polled through two decision passes: the first pass
    (with [hwnd] null) leaves the taskbar of monitor 1 maximised, the
    second (with [hwnd] the search window) gives it the Start
    appearance. *)
Example same_desktop_two_passes :
  taskbars (run_cycles 1 all_enabled search_desktop (first_cycle search_desktop)) !! 1
  = Some (100, MAXIMISED_APPEARANCE)
  ∧ taskbars (run_cycles 12 all_enabled search_desktop (first_cycle search_desktop)) !! 1
    = Some (100, START_APPEARANCE).
Proof. split; vm_compute; reflexivity. Qed.

(** The counter: a decision pass every eleventh call. *)
Example counter_cycle :
  counter (run_cycles 1 all_enabled search_desktop (first_cycle search_desktop)) = 0
  ∧ counter (run_cycles 11 all_enabled search_desktop (first_cycle search_desktop)) = 10
  ∧ counter (run_cycles 12 all_enabled search_desktop (first_cycle search_desktop)) = 0.
Proof. repeat split; vm_compute; reflexivity. Qed.

(** * More on the dispatcher *)

Lemma source_bit_involutive (i : Z) :
  0 ≤ i → 0 ≤ source_bit i ∧ source_bit (source_bit i) = i.
Proof.
  intros Hi. unfold source_bit.
  repeat match goal with
    | |- context [?a <? ?b] => destruct (Z.ltb_spec a b)
    end; lia.
Qed.

(** X1.  Exchanging red and blue twice gives the colour back. *)
Theorem swap_red_blue_involutive (color : Z) :
  0 ≤ color < 2 ^ 32 → swap_red_blue (swap_red_blue color) = color.
Proof.
  intros Hc. apply Z.bits_inj'; intros i Hi.
  destruct (source_bit_involutive i Hi) as [Hs Hss].
  rewrite swap_red_blue_testbit by (apply swap_red_blue_range || done).
  rewrite swap_red_blue_testbit by done. by rewrite Hss.
Qed.

Lemma swap_red_blue_involutive_witness :
  swap_red_blue (swap_red_blue 0x80112233) = 0x80112233.
Proof. apply (swap_red_blue_involutive 0x80112233). lia. Defined.

Lemma SetWindowBlur_records (os : Desktop) (memo : gmap Z bool)
    (r : Window * (ACCENT * Z)) :
  (SetWindowBlur os memo r.1 r.2.1 r.2.2).1
  = if SetWindowCompositionAttribute_available os
    then record_request memo r else memo.
Proof.
  unfold SetWindowBlur, record_request.
  destruct (SetWindowCompositionAttribute_available os); [| done].
  destruct r as [w [[| | code] c]]; cbn; try done.
  unfold not_known_normal.
  destruct (memo !! w) as [[|] |] eqn:E; cbn; try done.
  symmetry. by apply insert_id.
Qed.

Lemma SetWindowBlur_target (os : Desktop) (memo : gmap Z bool)
    (window : Window) (accent : ACCENT) (color : Z) (c : native_call) :
  c ∈ (SetWindowBlur os memo window accent color).2 → target c = window.
Proof.
  unfold SetWindowBlur.
  destruct (SetWindowCompositionAttribute_available os);
    [| by intros ?%elem_of_nil].
  destruct accent as [| | code]; cbn;
    [destruct (not_known_normal memo window); [| by intros ?%elem_of_nil] | |];
    by intros ->%list_elem_of_singleton.
Qed.

(** X2.  The memo after [SetWindowBlur]: with the primitive available the
    window is recorded as normal exactly when the requested accent is
    [ACCENT_NORMAL], and no other entry changes; without the primitive the
    memo is untouched. *)
Theorem SetWindowBlur_memo (os : Desktop) (memo : gmap Z bool)
    (window : Window) (accent : ACCENT) (color : Z) :
  (SetWindowBlur os memo window accent color).1
  = if SetWindowCompositionAttribute_available os
    then <[window := bool_decide (accent = ACCENT_NORMAL)]> memo
    else memo.
Proof.
  unfold SetWindowBlur.
  destruct (SetWindowCompositionAttribute_available os); [| done].
  destruct accent as [| | code]; cbn; try done.
  unfold not_known_normal.
  destruct (memo !! window) as [[|] |] eqn:E; cbn; try done.
  symmetry. by apply insert_id.
Qed.

(** X3.  Whatever [SetWindowBlur] issues is a single call addressed to the
    window it was given: a theme refresh only for [ACCENT_NORMAL] on a
    window not recorded as normal, an attribute call only for another
    accent, carrying that accent, the flags 2, the animation id 0 and a
    colour of 32 bits.  The attribute call is never made with
    [ACCENT_NORMAL]. *)
Theorem SetWindowBlur_calls (os : Desktop) (memo : gmap Z bool)
    (window : Window) (accent : ACCENT) (color : Z) (c : native_call) :
  c ∈ (SetWindowBlur os memo window accent color).2 →
  (SetWindowBlur os memo window accent color).2 = [c]
  ∧ SetWindowCompositionAttribute_available os = true
  ∧ match c with
    | send_WM_THEMECHANGED w =>
        w = window ∧ accent = ACCENT_NORMAL ∧ not_known_normal memo window = true
    | SetWindowCompositionAttribute w policy =>
        w = window ∧ accent ≠ ACCENT_NORMAL ∧ nAccentState policy = accent
        ∧ nFlags policy = 2 ∧ nAnimationId policy = 0
        ∧ 0 ≤ nColor policy < 2 ^ 32
    end.
Proof.
  assert (∀ z, 0 ≤ uint32 z < 2 ^ 32) as Hu
    by (intros z; unfold uint32; apply Z.mod_pos_bound; lia).
  unfold SetWindowBlur.
  destruct (SetWindowCompositionAttribute_available os);
    [| by intros ?%elem_of_nil].
  destruct accent as [| | code]; cbn.
  - destruct (not_known_normal memo window) eqn:E; [| by intros ?%elem_of_nil].
    intros ->%list_elem_of_singleton. done.
  - intros ->%list_elem_of_singleton.
    destruct (_ && _); cbn; repeat (split; [done |]);
      [| unfold swap_red_blue]; apply Hu.
  - intros ->%list_elem_of_singleton. cbn. repeat (split; [done |]).
    unfold swap_red_blue. apply Hu.
Qed.

Lemma SetWindowBlur_calls_witness :
  (SetWindowBlur search_desktop ∅ 100 ACCENT_ENABLE_FLUENT 0x00112233).2
  = [SetWindowCompositionAttribute 100
       {| nAccentState := ACCENT_ENABLE_FLUENT; nFlags := 2;
          nColor := 0x01332211; nAnimationId := 0 |}]
  ∧ SetWindowCompositionAttribute_available search_desktop = true.
Proof.
  destruct (SetWindowBlur_calls search_desktop ∅ 100 ACCENT_ENABLE_FLUENT 0x00112233
              (SetWindowCompositionAttribute 100
                 {| nAccentState := ACCENT_ENABLE_FLUENT; nFlags := 2;
                    nColor := 0x01332211; nAnimationId := 0 |}))
    as (H1 & H2 & _).
  - vm_compute. apply elem_of_cons. by left.
  - by split.
Defined.

(** X4.  After any accent other than [ACCENT_NORMAL] was applied to a
    window, the next [ACCENT_NORMAL] request for it sends the theme
    refresh again, whatever the memo held before. *)
Theorem SetWindowBlur_back_to_normal (os : Desktop) (memo : gmap Z bool)
    (window : Window) (accent : ACCENT) (color1 color2 : Z) :
  SetWindowCompositionAttribute_available os = true →
  accent ≠ ACCENT_NORMAL →
  (SetWindowBlur os (SetWindowBlur os memo window accent color1).1
     window ACCENT_NORMAL color2).2
  = [send_WM_THEMECHANGED window].
Proof.
  intros Hav Hacc.
  pose proof (SetWindowBlur_records os memo (window, (accent, color1))) as Hm.
  unfold record_request in Hm. cbn in Hm. rewrite Hm, Hav.
  rewrite bool_decide_eq_false_2 by done.
  unfold SetWindowBlur. rewrite Hav. cbn.
  unfold not_known_normal. by rewrite lookup_insert_eq.
Qed.

Lemma SetWindowBlur_back_to_normal_witness :
  (SetWindowBlur search_desktop
     (SetWindowBlur search_desktop {[100 := true]} 100 (ACCENT_OTHER 3) 0).1
     100 ACCENT_NORMAL 0).2
  = [send_WM_THEMECHANGED 100].
Proof.
  apply (SetWindowBlur_back_to_normal search_desktop {[100 := true]} 100
           (ACCENT_OTHER 3) 0 0).
  - reflexivity.
  - discriminate.
Defined.

(** ** The loop over the registry *)

Lemma calls_for_ext (os : Desktop) (m1 m2 : gmap Z bool)
    (r : Window * (ACCENT * Z)) :
  m1 !! r.1 = m2 !! r.1 → calls_for os m1 r = calls_for os m2 r.
Proof.
  intros H. unfold calls_for, SetWindowBlur, not_known_normal. rewrite H.
  destruct (SetWindowCompositionAttribute_available os); [| done].
  destruct r as [w [[| | code] c]]; cbn; try done.
  by destruct (m2 !! w) as [[|] |].
Qed.

Lemma bind_ext_in {A B : Type} (f h : A → list B) (l : list A) :
  (∀ x, x ∈ l → f x = h x) → l ≫= f = l ≫= h.
Proof.
  induction l as [| x l IH]; intros H; [done |].
  rewrite !bind_cons, H, IH; [done | | apply elem_of_cons; by left].
  intros y Hy. apply H, elem_of_cons. by right.
Qed.

Lemma blur_memo (os : Desktop) (l : list (Window * (ACCENT * Z)))
    (m : gmap Z bool) (cs : list native_call) :
  (foldl (blur_step os) (m, cs) l).1
  = if SetWindowCompositionAttribute_available os
    then foldl record_request m l else m.
Proof.
  revert m cs. induction l as [| r l IH]; intros m cs; cbn.
  - by destruct (SetWindowCompositionAttribute_available os).
  - unfold blur_step at 2. cbn. rewrite IH, SetWindowBlur_records.
    by destruct (SetWindowCompositionAttribute_available os).
Qed.

Lemma blur_calls (os : Desktop) (l : list (Window * (ACCENT * Z)))
    (m : gmap Z bool) (cs : list native_call) :
  NoDup l.*1 →
  (foldl (blur_step os) (m, cs) l).2 = cs ++ (l ≫= calls_for os m).
Proof.
  revert m cs. induction l as [| r l IH]; intros m cs Hnd; cbn.
  - by rewrite app_nil_r.
  - apply NoDup_cons in Hnd as [Hr Hnd].
    unfold blur_step at 2. cbn. rewrite IH by done.
    rewrite <- app_assoc. f_equal. fold (calls_for os m r). f_equal.
    apply bind_ext_in. intros r' Hr'. apply calls_for_ext.
    rewrite SetWindowBlur_records.
    destruct (SetWindowCompositionAttribute_available os); [| done].
    apply lookup_insert_ne. intros E. apply Hr. rewrite E.
    by apply list_elem_of_fmap_2.
Qed.

Lemma record_all_other (l : list (Window * (ACCENT * Z))) (m : gmap Z bool)
    (w : Window) :
  w ∉ l.*1 → foldl record_request m l !! w = m !! w.
Proof.
  revert m. induction l as [| r l IH]; intros m Hw; [done |].
  cbn in *. apply not_elem_of_cons in Hw as [Hne Hw].
  rewrite IH by done. unfold record_request. by rewrite lookup_insert_ne.
Qed.

Lemma record_all_lookup (l : list (Window * (ACCENT * Z))) (m : gmap Z bool)
    (r : Window * (ACCENT * Z)) :
  NoDup l.*1 → r ∈ l →
  foldl record_request m l !! r.1 = Some (bool_decide (r.2.1 = ACCENT_NORMAL)).
Proof.
  revert m. induction l as [| r0 l IH]; intros m Hnd Hr;
    [by apply elem_of_nil in Hr |].
  cbn in *. apply NoDup_cons in Hnd as [Hr0 Hnd].
  apply elem_of_cons in Hr as [-> | Hr]; [| by apply IH].
  rewrite record_all_other by done. unfold record_request.
  by rewrite lookup_insert_eq.
Qed.

Lemma record_all_twice (l : list (Window * (ACCENT * Z))) (m : gmap Z bool) :
  NoDup l.*1 → foldl record_request (foldl record_request m l) l
               = foldl record_request m l.
Proof.
  intros Hnd. apply map_eq; intros w.
  destruct (decide (w ∈ l.*1)) as [Hw | Hw].
  - apply list_elem_of_fmap in Hw as (r & -> & Hr).
    by rewrite !record_all_lookup.
  - by rewrite !record_all_other.
Qed.

Lemma apply_all_requests (cfg : Config) (os : Desktop)
    (t : gmap Z (Z * APPEARANCE)) (memo : gmap Z bool) :
  apply_all cfg os t memo = blur_each os (requests_of cfg t) memo.
Proof. unfold apply_all, blur_each, requests_of. by rewrite foldl_fmap. Qed.

Lemma requests_of_NoDup (cfg : Config) (t : gmap Z (Z * APPEARANCE)) :
  distinct_surfaces t → NoDup (requests_of cfg t).*1.
Proof.
  intros Hd. unfold requests_of. rewrite <- list_fmap_compose.
  apply NoDup_fmap_2_strong; [| apply NoDup_map_to_list].
  intros [k1 [w1 a1]] [k2 [w2 a2]] H1%elem_of_map_to_list H2%elem_of_map_to_list E.
  cbn in E. subst w2. assert (k1 = k2) as -> by eauto. congruence.
Qed.

Lemma no_theme_refresh (calls : list native_call) :
  (∀ c, c ∈ calls → is_theme_refresh c = false) → theme_refreshes calls = 0%nat.
Proof.
  unfold theme_refreshes. induction calls as [| c calls IH]; intros H; [done |].
  cbn. rewrite H by (apply elem_of_cons; by left).
  apply IH. intros c' Hc'. apply H, elem_of_cons. by right.
Qed.

(** ** What a poll cycle leaves alone *)

Lemma EnumWindowsProcess_frame (cfg : Config) (os : Desktop) (g : Globals)
    (w : Window) :
  main_taskbar (EnumWindowsProcess cfg os g w) = main_taskbar g
  ∧ is_normal (EnumWindowsProcess cfg os g w) = is_normal g
  ∧ counter (EnumWindowsProcess cfg os g w) = counter g.
Proof. unfold EnumWindowsProcess. cbn. repeat (case_match; cbn); done. Qed.

Lemma scan_frame (cfg : Config) (os : Desktop) (ws : list Window) (g : Globals) :
  main_taskbar (foldl (EnumWindowsProcess cfg os) g ws) = main_taskbar g
  ∧ is_normal (foldl (EnumWindowsProcess cfg os) g ws) = is_normal g
  ∧ counter (foldl (EnumWindowsProcess cfg os) g ws) = counter g.
Proof.
  revert g. induction ws as [| w ws IH]; intros g; [done |].
  cbn. destruct (IH (EnumWindowsProcess cfg os g w)) as (-> & -> & ->).
  apply EnumWindowsProcess_frame.
Qed.

Lemma foreground_rule_frame (cfg : Config) (os : Desktop) (window : Window)
    (g : Globals) :
  main_taskbar (foreground_rule cfg os window g) = main_taskbar g
  ∧ is_normal (foreground_rule cfg os window g) = is_normal g
  ∧ should_show_peek (foreground_rule cfg os window g) = should_show_peek g
  ∧ hwnd (foreground_rule cfg os window g) = hwnd g.
Proof. unfold foreground_rule. repeat (case_match; cbn); done. Qed.

Lemma after_scan_frame (cfg : Config) (os : Desktop) (g : Globals) :
  main_taskbar (peek_rule cfg g) = main_taskbar g
  ∧ is_normal (peek_rule cfg g) = is_normal g
  ∧ should_show_peek (peek_rule cfg g) = should_show_peek g
  ∧ hwnd (peek_rule cfg g) = hwnd g
  ∧ main_taskbar (timeline_rule cfg os g) = main_taskbar g
  ∧ is_normal (timeline_rule cfg os g) = is_normal g
  ∧ should_show_peek (timeline_rule cfg os g) = should_show_peek g
  ∧ hwnd (timeline_rule cfg os g) = hwnd g
  ∧ peek_active (peek_rule cfg g) = peek_active g
  ∧ start_opened (peek_rule cfg g) = start_opened g
  ∧ peek_active (timeline_rule cfg os g) = peek_active g
  ∧ start_opened (timeline_rule cfg os g) = start_opened g.
Proof. unfold peek_rule, timeline_rule. repeat (case_match; cbn); done. Qed.

Lemma scanned_frame (cfg : Config) (os : Desktop) (g : Globals) :
  main_taskbar (scanned cfg os g) = main_taskbar g
  ∧ is_normal (scanned cfg os g) = is_normal g.
Proof.
  unfold scanned, EnumWindows. destruct (_ || _); [| done].
  by destruct (scan_frame cfg os (EnumWindows_order os)
                 (set_all REGULAR_APPEARANCE
                    (set_should_show_peek g (bool_decide (PEEK cfg = Enabled)))))
    as (-> & -> & _).
Qed.

Lemma decision_pass_frame (cfg : Config) (os : Desktop) (window : Window)
    (g : Globals) :
  fst <$> taskbars (decision_pass cfg os window g) = fst <$> taskbars g
  ∧ main_taskbar (decision_pass cfg os window g) = main_taskbar g
  ∧ peek_active (decision_pass cfg os window g) = peek_active g
  ∧ start_opened (decision_pass cfg os window g) = start_opened g
  ∧ is_normal (decision_pass cfg os window g) = is_normal g.
Proof.
  rewrite decision_pass_eq. cbn.
  pose proof (after_scan_frame cfg os (peek_rule cfg (before_peek_rule cfg os window g)))
    as (_ & _ & _ & _ & -> & -> & _ & _ & _ & _ & -> & ->).
  pose proof (after_scan_frame cfg os (before_peek_rule cfg os window g))
    as (-> & -> & _ & _ & _ & _ & _ & _ & -> & -> & _).
  destruct (before_peek_rule_flags cfg os window g) as [-> ->].
  unfold before_peek_rule at 2 3.
  destruct (foreground_rule_frame cfg os window (scanned cfg os g)) as (-> & -> & _).
  destruct (scanned_frame cfg os g) as [-> ->].
  repeat split; try done.
  rewrite timeline_rule_taskbars, peek_rule_taskbars.
  rewrite <- (before_peek_rule_surfaces cfg os window g).
  destruct (timeline_fires cfg os), (_ && _);
    rewrite ?set_second_twice, ?fmap_fst_set_second; done.
Qed.

(** X5.  Without the primitive a poll cycle issues no native call and
    leaves the memo untouched, whatever the registry holds. *)
Theorem SetTaskbarBlur_unavailable (cfg : Config) (os : Desktop) (g : Globals) :
  SetWindowCompositionAttribute_available os = false →
  (SetTaskbarBlur cfg os g).2 = []
  ∧ is_normal (SetTaskbarBlur cfg os g).1 = is_normal g.
Proof.
  intros Hav.
  assert (∀ l m cs, foldl (blur_step os) (m, cs) l = (m, cs)) as Hnone.
  { induction l as [| r l IH]; intros m cs; [done |].
    cbn. unfold blur_step at 2, SetWindowBlur. rewrite Hav. cbn.
    by rewrite app_nil_r. }
  unfold SetTaskbarBlur. cbn.
  rewrite apply_all_requests. unfold blur_each. rewrite Hnone. cbn.
  split; [done |]. destruct (10 <=? counter g); [| done].
  apply decision_pass_frame.
Qed.

Lemma SetTaskbarBlur_unavailable_witness :
  (SetTaskbarBlur all_enabled old_windows (first_cycle old_windows)).2 = []
  ∧ is_normal (SetTaskbarBlur all_enabled old_windows (first_cycle old_windows)).1
    = is_normal (first_cycle old_windows).
Proof.
  apply (SetTaskbarBlur_unavailable all_enabled old_windows (first_cycle old_windows)).
  reflexivity.
Defined.

(** X6.  When no taskbar window is bound to two monitors, the loop of
    lines 399-403 treats the taskbars independently: its calls are, entry
    by entry, what [SetWindowBlur] issues for that entry against the memo
    the loop started with. *)
Theorem apply_all_independent (cfg : Config) (os : Desktop)
    (t : gmap Z (Z * APPEARANCE)) (memo : gmap Z bool) :
  distinct_surfaces t →
  (apply_all cfg os t memo).2 = requests_of cfg t ≫= calls_for os memo.
Proof.
  intros Hd. rewrite apply_all_requests. unfold blur_each.
  by rewrite blur_calls by by apply requests_of_NoDup.
Qed.

(** X7.  Every native call of the loop is addressed to a taskbar window
    of the registry. *)
Theorem apply_all_targets (cfg : Config) (os : Desktop)
    (t : gmap Z (Z * APPEARANCE)) (memo : gmap Z bool) (c : native_call) :
  c ∈ (apply_all cfg os t memo).2 →
  ∃ k a, t !! k = Some (target c, a).
Proof.
  rewrite apply_all_requests. unfold blur_each.
  assert (∀ l m cs, c ∈ (foldl (blur_step os) (m, cs) l).2 →
            c ∈ cs ∨ ∃ r, r ∈ l ∧ target c = r.1) as Hin.
  { induction l as [| r l IH]; intros m cs Hc; [by left |].
    cbn in Hc. apply IH in Hc as [Hc | (r' & Hr' & E)].
    - unfold blur_step in Hc. cbn in Hc.
      apply elem_of_app in Hc as [Hc | Hc]; [by left |]. right.
      exists r. split; [apply elem_of_cons; by left |].
      by apply SetWindowBlur_target in Hc.
    - right. exists r'. split; [apply elem_of_cons; by right | done]. }
  intros Hc. apply Hin in Hc as [Hc | (r & Hr & E)];
    [by apply elem_of_nil in Hc |].
  unfold requests_of in Hr.
  apply list_elem_of_fmap in Hr as ([k [w a]] & -> & Hk%elem_of_map_to_list).
  cbn in E. rewrite E. by exists k, a.
Qed.

Lemma apply_all_targets_witness :
  ∃ k a, taskbars (first_cycle search_desktop) !! k
         = Some (target (send_WM_THEMECHANGED 100), a).
Proof.
  apply (apply_all_targets all_enabled search_desktop
           (taskbars (first_cycle search_desktop)) ∅ (send_WM_THEMECHANGED 100)).
  vm_compute. set_solver.
Defined.

Lemma calls_for_not_normal (os : Desktop) (m : gmap Z bool)
    (r : Window * (ACCENT * Z)) :
  r.2.1 ≠ ACCENT_NORMAL → calls_for os m r = calls_for os ∅ r.
Proof.
  intros Hacc. unfold calls_for, SetWindowBlur.
  destruct (SetWindowCompositionAttribute_available os); [| done].
  by destruct r as [w [[| | code] c]].
Qed.

(** X8.  The steady state of the loop: when no taskbar window is bound to
    two monitors and the primitive is available, running the loop a second
    time over the same registry leaves the memo as the first run left it,
    sends no theme refresh, and issues exactly the attribute calls of the
    taskbars whose accent is not [ACCENT_NORMAL]. *)
Theorem apply_all_steady (cfg : Config) (os : Desktop)
    (t : gmap Z (Z * APPEARANCE)) (memo : gmap Z bool) :
  distinct_surfaces t →
  SetWindowCompositionAttribute_available os = true →
  (apply_all cfg os t (apply_all cfg os t memo).1).1 = (apply_all cfg os t memo).1
  ∧ theme_refreshes (apply_all cfg os t (apply_all cfg os t memo).1).2 = 0%nat
  ∧ (apply_all cfg os t (apply_all cfg os t memo).1).2
    = requests_of cfg t
      ≫= (λ r, if bool_decide (r.2.1 = ACCENT_NORMAL) then [] else calls_for os ∅ r).
Proof.
  intros Hd Hav. pose proof (requests_of_NoDup cfg t Hd) as Hnd.
  rewrite !apply_all_requests. unfold blur_each.
  rewrite !blur_memo, Hav, !blur_calls by done. cbn [app].
  assert (requests_of cfg t ≫= calls_for os (foldl record_request memo (requests_of cfg t))
          = requests_of cfg t
            ≫= (λ r, if bool_decide (r.2.1 = ACCENT_NORMAL) then []
                     else calls_for os ∅ r)) as Hcalls.
  { apply bind_ext_in. intros r Hr. case_bool_decide as Hacc.
    - unfold calls_for, SetWindowBlur, not_known_normal.
      rewrite Hav, record_all_lookup by done. rewrite Hacc. cbn.
      by rewrite bool_decide_eq_true_2.
    - by apply calls_for_not_normal. }
  split; [by apply record_all_twice |]. split; [| done].
  rewrite Hcalls. apply no_theme_refresh. intros c Hc.
  apply list_elem_of_bind in Hc as (r & Hc & Hr).
  case_bool_decide as Hacc; [by apply elem_of_nil in Hc |].
  unfold calls_for in Hc. rewrite SetWindowBlur_not_normal in Hc by done.
  cbn in Hc. by apply list_elem_of_singleton in Hc as ->.
Qed.

(** * More on the registry *)

Lemma RefreshHandles_eq (os : Desktop) (g : Globals) :
  RefreshHandles os g
  = set_taskbars (set_main_taskbar g (Find_Shell_TrayWnd os))
      (foldl (bind_taskbar os) ∅ (found_taskbars os)).
Proof.
  unfold RefreshHandles, found_taskbars. cbn [foldl].
  set (g0 := set_taskbars _ (<[_ := _]> _)).
  change (bind_taskbar os ∅ (Find_Shell_TrayWnd os)) with (taskbars g0).
  change (set_taskbars (set_main_taskbar g (Find_Shell_TrayWnd os)))
    with (set_taskbars g0).
  generalize g0. clear g0.
  induction (FindEnum_Shell_SecondaryTrayWnd os) as [| s l IH]; intros g0.
  - by destruct g0.
  - cbn [foldl]. rewrite IH. done.
Qed.

Lemma bound_keyed (os : Desktop) (l : list Window) (k : Z) (w : Window)
    (a : APPEARANCE) :
  foldl (bind_taskbar os) ∅ l !! k = Some (w, a) → k = monitor os w.
Proof.
  intros H. apply bind_all_origin in H as [(_ & ? & _) | H]; [done |].
  by rewrite lookup_empty in H.
Qed.

Lemma bound_distinct (os : Desktop) (l : list Window) :
  distinct_surfaces (foldl (bind_taskbar os) ∅ l).
Proof.
  intros k1 k2 w a1 a2 H1 H2.
  apply bound_keyed in H1, H2. congruence.
Qed.

Lemma distinct_surfaces_ext (t1 t2 : gmap Z (Z * APPEARANCE)) :
  fst <$> t1 = fst <$> t2 → distinct_surfaces t1 → distinct_surfaces t2.
Proof.
  intros E Hd k1 k2 w a1 a2 H1 H2.
  assert (∀ k a, t2 !! k = Some (w, a) → ∃ b, t1 !! k = Some (w, b)) as Hback.
  { intros k a Hk. apply (f_equal (λ m, m !! k)) in E.
    rewrite !lookup_fmap, Hk in E.
    destruct (t1 !! k) as [[w' b] |]; simplify_eq/=. by exists b. }
  destruct (Hback _ _ H1) as [b1 Hb1], (Hback _ _ H2) as [b2 Hb2]. eauto.
Qed.

(** X9.  [RefreshHandles] is idempotent, and it touches nothing but the
    registry and [main_taskbar]: the flags, [hwnd], the counter and the
    dispatcher's memo are as before, so a rebuild neither forces a decision
    pass nor forgets what was applied to windows that are gone. *)
Theorem RefreshHandles_idempotent (os : Desktop) (g : Globals) :
  RefreshHandles os (RefreshHandles os g) = RefreshHandles os g
  ∧ main_taskbar (RefreshHandles os g) = Find_Shell_TrayWnd os
  ∧ should_show_peek (RefreshHandles os g) = should_show_peek g
  ∧ peek_active (RefreshHandles os g) = peek_active g
  ∧ start_opened (RefreshHandles os g) = start_opened g
  ∧ hwnd (RefreshHandles os g) = hwnd g
  ∧ counter (RefreshHandles os g) = counter g
  ∧ is_normal (RefreshHandles os g) = is_normal g.
Proof. rewrite !RefreshHandles_eq. repeat split. Qed.

(** X10.  After [RefreshHandles] no taskbar window is bound to two
    monitors, and no poll cycle changes that. *)
Theorem distinct_surfaces_invariant (cfg : Config) (os : Desktop) (g : Globals) :
  distinct_surfaces (taskbars (RefreshHandles os g))
  ∧ (distinct_surfaces (taskbars g) →
     distinct_surfaces (taskbars (SetTaskbarBlur cfg os g).1)).
Proof.
  split.
  - rewrite RefreshHandles_taskbars. apply bound_distinct.
  - apply distinct_surfaces_ext. unfold SetTaskbarBlur. cbn.
    destruct (10 <=? counter g); [| done].
    symmetry. apply decision_pass_frame.
Qed.

Lemma first_cycle_distinct (os : Desktop) : distinct_surfaces (taskbars (first_cycle os)).
Proof. unfold first_cycle. rewrite RefreshHandles_taskbars. apply bound_distinct. Qed.

Lemma distinct_surfaces_invariant_witness :
  distinct_surfaces (taskbars (RefreshHandles search_desktop startup))
  ∧ (distinct_surfaces (taskbars (first_cycle search_desktop)) →
     distinct_surfaces
       (taskbars (SetTaskbarBlur all_enabled search_desktop
                    (first_cycle search_desktop)).1)).
Proof.
  destruct (distinct_surfaces_invariant all_enabled search_desktop startup) as [H1 _].
  destruct (distinct_surfaces_invariant all_enabled search_desktop
              (first_cycle search_desktop)) as [_ H2].
  split; [exact H1 | exact H2].
Defined.

Lemma apply_all_independent_witness :
  (apply_all all_enabled search_desktop (taskbars (first_cycle search_desktop)) ∅).2
  = requests_of all_enabled (taskbars (first_cycle search_desktop))
    ≫= calls_for search_desktop ∅.
Proof.
  apply (apply_all_independent all_enabled search_desktop
           (taskbars (first_cycle search_desktop)) ∅).
  apply first_cycle_distinct.
Defined.

Lemma apply_all_steady_witness :
  theme_refreshes
    (apply_all all_enabled search_desktop (taskbars (first_cycle search_desktop))
       (apply_all all_enabled search_desktop
          (taskbars (first_cycle search_desktop)) ∅).1).2 = 0%nat.
Proof.
  destruct (apply_all_steady all_enabled search_desktop
              (taskbars (first_cycle search_desktop)) ∅) as (_ & H & _).
  - apply first_cycle_distinct.
  - reflexivity.
  - exact H.
Defined.

(** X11.  A poll cycle never adds, removes or rebinds a taskbar, and never
    writes [main_taskbar] or the flags [peek_active] and [start_opened]:
    only the appearances of the registry change. *)
Theorem SetTaskbarBlur_keeps_registry (cfg : Config) (os : Desktop) (g : Globals) :
  fst <$> taskbars (SetTaskbarBlur cfg os g).1 = fst <$> taskbars g
  ∧ main_taskbar (SetTaskbarBlur cfg os g).1 = main_taskbar g
  ∧ peek_active (SetTaskbarBlur cfg os g).1 = peek_active g
  ∧ start_opened (SetTaskbarBlur cfg os g).1 = start_opened g.
Proof.
  unfold SetTaskbarBlur. cbn. destruct (10 <=? counter g); [| done].
  pose proof (decision_pass_frame cfg os (hwnd g) g) as (? & ? & ? & ? & _).
  done.
Qed.

(** * More on the poll cycle *)

Lemma counter_step (cfg : Config) (os : Desktop) (g : Globals) :
  counter (SetTaskbarBlur cfg os g).1
  = if 10 <=? counter g then 0 else uint8 (counter g + 1).
Proof. unfold SetTaskbarBlur. cbn. by destruct (10 <=? counter g). Qed.

Lemma poll_snoc (cfg : Config) (g : Globals) (desktops : list Desktop) (os : Desktop) :
  poll cfg g (desktops ++ [os]) = (SetTaskbarBlur cfg os (poll cfg g desktops)).1.
Proof. unfold poll. by rewrite foldl_app. Qed.

(** X12.  The counter runs through 0, 1, ..., 10 and back to 0: started
    within that range it is, after any number of poll cycles, the start
    value plus the number of cycles modulo 11, so a decision pass is made
    on every eleventh call; and from any value of a [uint8_t] one call
    brings it into the range. *)
Theorem counter_period (cfg : Config) (g : Globals) (desktops : list Desktop) :
  0 ≤ counter g ≤ 10 →
  counter (poll cfg g desktops) = (counter g + Z.of_nat (length desktops)) mod 11
  ∧ ∀ os g', 0 ≤ counter g' < 256 → 0 ≤ counter (SetTaskbarBlur cfg os g').1 ≤ 10.
Proof.
  intros Hc. split.
  - induction desktops as [| os desktops IH] using rev_ind.
    + cbn. rewrite Z.add_0_r. symmetry. apply Z.mod_small. lia.
    + rewrite poll_snoc, counter_step, IH, length_app. cbn [length].
      rewrite Nat2Z.inj_add. change (Z.of_nat 1) with 1.
      set (n := counter g + Z.of_nat (length desktops)).
      replace (counter g + (Z.of_nat (length desktops) + 1)) with (n + 1) by lia.
      assert (0 ≤ n) by lia. unfold uint8.
      destruct (Z.leb_spec 10 (n mod 11)); Z.div_mod_to_equations; lia.
  - intros os g' Hg'. rewrite counter_step. unfold uint8.
    destruct (Z.leb_spec 10 (counter g')); [lia |].
    Z.div_mod_to_equations; lia.
Qed.

Lemma counter_period_witness :
  counter (poll all_enabled (first_cycle search_desktop)
             [search_desktop; quiet_desktop; search_desktop])
  = (counter (first_cycle search_desktop) + Z.of_nat 3) mod 11.
Proof.
  apply (counter_period all_enabled (first_cycle search_desktop)
           [search_desktop; quiet_desktop; search_desktop]).
  vm_compute. split; discriminate.
Defined.

(** X13.  Between two decision passes the decision is held: while the
    counter stays below 10, poll cycles change neither the registry nor
    [hwnd] nor [should_show_peek], whatever the desktop looks like during
    those cycles; only the counter advances. *)
Theorem decision_held (cfg : Config) (g : Globals) (desktops : list Desktop) :
  0 ≤ counter g →
  counter g + Z.of_nat (length desktops) ≤ 10 →
  taskbars (poll cfg g desktops) = taskbars g
  ∧ hwnd (poll cfg g desktops) = hwnd g
  ∧ should_show_peek (poll cfg g desktops) = should_show_peek g
  ∧ counter (poll cfg g desktops) = counter g + Z.of_nat (length desktops).
Proof.
  intros H0. induction desktops as [| os desktops IH] using rev_ind; intros Hlen.
  - cbn. repeat split. lia.
  - rewrite length_app in Hlen. cbn [length] in Hlen.
    destruct IH as (Ht & Hh & Hp & Hc); [lia |].
    rewrite poll_snoc, length_app. cbn [length]. unfold SetTaskbarBlur. cbn.
    rewrite Hc.
    destruct (Z.leb_spec 10 (counter g + Z.of_nat (length desktops))); [lia |].
    cbn. repeat split; try done.
    unfold uint8. rewrite Z.mod_small by lia. lia.
Qed.

Lemma decision_held_witness :
  taskbars (poll all_enabled
              (SetTaskbarBlur all_enabled search_desktop (first_cycle search_desktop)).1
              [quiet_desktop; task_view_desktop])
  = taskbars (SetTaskbarBlur all_enabled search_desktop (first_cycle search_desktop)).1.
Proof.
  apply (decision_held all_enabled
           (SetTaskbarBlur all_enabled search_desktop (first_cycle search_desktop)).1
           [quiet_desktop; task_view_desktop]).
  - vm_compute. discriminate.
  - vm_compute. discriminate.
Defined.

Lemma last_cons_default {A : Type} (x d : A) (l : list A) :
  List.last (x :: l) d = List.last l x.
Proof.
  revert x d. induction l as [| y l IH]; intros x d; [done |].
  change (List.last (x :: y :: l) d) with (List.last (y :: l) d).
  by rewrite (IH y d), (IH y x).
Qed.

Lemma scan_hwnd (cfg : Config) (os : Desktop) (ws : list Window) (g : Globals) :
  hwnd (foldl (EnumWindowsProcess cfg os) g ws) = List.last ws (hwnd g).
Proof.
  revert g. induction ws as [| w ws IH]; intros g; [done |].
  cbn [foldl]. rewrite IH, last_cons_default.
  by destruct (EnumWindowsProcess_flags cfg os g w) as (_ & _ & ->).
Qed.

(** X14.  After a decision pass the global [hwnd] is the last window
    [EnumWindows] reported, whether or not that window counted as
    maximised; it keeps its value when the enumeration reports nothing or
    is skipped (maximised feature off and peek not dynamic). *)
Theorem decision_pass_hwnd (cfg : Config) (os : Desktop) (g : Globals) :
  10 ≤ counter g →
  hwnd (SetTaskbarBlur cfg os g).1
  = if MAXIMISED_ENABLED cfg || bool_decide (PEEK cfg = Dynamic)
    then List.last (EnumWindows_order os) (hwnd g)
    else hwnd g.
Proof.
  intros Hc. unfold SetTaskbarBlur. cbn.
  rewrite (proj2 (Z.leb_le _ _) Hc). rewrite decision_pass_eq. cbn.
  pose proof (after_scan_frame cfg os (peek_rule cfg (before_peek_rule cfg os (hwnd g) g)))
    as (_ & _ & _ & _ & _ & _ & _ & -> & _).
  pose proof (after_scan_frame cfg os (before_peek_rule cfg os (hwnd g) g))
    as (_ & _ & _ & -> & _).
  unfold before_peek_rule.
  destruct (foreground_rule_frame cfg os (hwnd g) (scanned cfg os g))
    as (_ & _ & _ & ->).
  unfold scanned, EnumWindows. destruct (_ || _); [| done].
  by rewrite scan_hwnd.
Qed.

Lemma decision_pass_hwnd_witness :
  hwnd (SetTaskbarBlur all_enabled search_desktop (first_cycle search_desktop)).1
  = if MAXIMISED_ENABLED all_enabled || bool_decide (PEEK all_enabled = Dynamic)
    then List.last (EnumWindows_order search_desktop)
           (hwnd (first_cycle search_desktop))
    else hwnd (first_cycle search_desktop).
Proof.
  apply (decision_pass_hwnd all_enabled search_desktop (first_cycle search_desktop)).
  vm_compute. discriminate.
Defined.

(** ** The peek decision *)

Lemma on_main_taskbar_ext (os : Desktop) (g1 g2 : Globals) (w : Window) :
  fst <$> taskbars g1 = fst <$> taskbars g2 →
  main_taskbar g1 = main_taskbar g2 →
  on_main_taskbar os g1 w = on_main_taskbar os g2 w.
Proof.
  intros Ht Hm. unfold on_main_taskbar. rewrite Hm.
  apply (f_equal (λ m, m !! monitor os w)) in Ht. rewrite !lookup_fmap in Ht.
  destruct (taskbars g1 !! _) as [[s1 a1] |], (taskbars g2 !! _) as [[s2 a2] |];
    simplify_eq/=; done.
Qed.

Lemma EnumWindowsProcess_peek (cfg : Config) (os : Desktop) (g : Globals)
    (w : Window) :
  should_show_peek (EnumWindowsProcess cfg os g w)
  = should_show_peek g
    || (maximised_on_taskbar_monitor os (taskbars g) w
        && bool_decide (PEEK cfg = Dynamic)
        && (negb (PEEK_ONLY_MAIN cfg) || on_main_taskbar os g w)).
Proof.
  unfold EnumWindowsProcess, on_main_taskbar. cbn.
  destruct (maximised_on_taskbar_monitor os (taskbars g) w); cbn;
    [| by rewrite orb_false_r].
  destruct (bool_decide (PEEK cfg = Dynamic)); cbn;
    [| destruct (MAXIMISED_ENABLED cfg); by rewrite orb_false_r].
  destruct (PEEK_ONLY_MAIN cfg); cbn;
    [| destruct (MAXIMISED_ENABLED cfg); by rewrite orb_true_r].
  destruct (MAXIMISED_ENABLED cfg); cbn; rewrite ?lookup_alter_eq;
    destruct (taskbars g !! monitor os w) as [[s a] |]; cbn;
    rewrite ?orb_false_r; try done;
    destruct (s =? main_taskbar g); cbn; by rewrite ?orb_true_r, ?orb_false_r.
Qed.

Lemma scan_peek (cfg : Config) (os : Desktop) (ws : list Window) (g : Globals) :
  should_show_peek (foldl (EnumWindowsProcess cfg os) g ws)
  = should_show_peek g
    || (bool_decide (PEEK cfg = Dynamic)
        && existsb (λ w, maximised_on_taskbar_monitor os (taskbars g) w
                         && (negb (PEEK_ONLY_MAIN cfg) || on_main_taskbar os g w)) ws).
Proof.
  revert g. induction ws as [| w ws IH]; intros g.
  - cbn. by rewrite andb_false_r, orb_false_r.
  - cbn [foldl existsb]. rewrite IH, EnumWindowsProcess_peek.
    rewrite (existsb_pointwise _
               (λ w, maximised_on_taskbar_monitor os (taskbars g) w
                     && (negb (PEEK_ONLY_MAIN cfg) || on_main_taskbar os g w))).
    + destruct (should_show_peek g), (bool_decide (PEEK cfg = Dynamic)),
        (maximised_on_taskbar_monitor os (taskbars g) w),
        (negb (PEEK_ONLY_MAIN cfg) || on_main_taskbar os g w),
        (existsb _ ws); done.
    + intros x. f_equal.
      * apply maximised_on_taskbar_monitor_ext, EnumWindowsProcess_surfaces.
      * f_equal. apply on_main_taskbar_ext;
          [apply EnumWindowsProcess_surfaces | apply EnumWindowsProcess_frame].
Qed.

Lemma decision_pass_peek_flag (cfg : Config) (os : Desktop) (window : Window)
    (g : Globals) :
  should_show_peek (decision_pass cfg os window g)
  = bool_decide (PEEK cfg = Enabled)
    || (bool_decide (PEEK cfg = Dynamic)
        && existsb (λ w, maximised_on_taskbar_monitor os (taskbars g) w
                         && (negb (PEEK_ONLY_MAIN cfg) || on_main_taskbar os g w))
             (EnumWindows_order os)).
Proof.
  rewrite decision_pass_eq. cbn.
  pose proof (after_scan_frame cfg os (peek_rule cfg (before_peek_rule cfg os window g)))
    as (_ & _ & _ & _ & _ & _ & -> & _).
  pose proof (after_scan_frame cfg os (before_peek_rule cfg os window g))
    as (_ & _ & -> & _).
  unfold before_peek_rule.
  destruct (foreground_rule_frame cfg os window (scanned cfg os g))
    as (_ & _ & -> & _).
  unfold scanned, EnumWindows.
  destruct (MAXIMISED_ENABLED cfg || bool_decide (PEEK cfg = Dynamic)) eqn:E.
  - rewrite scan_peek. cbn. f_equal. f_equal. apply existsb_pointwise.
    intros w. f_equal.
    + apply maximised_on_taskbar_monitor_ext, fmap_fst_set_second.
    + f_equal. apply on_main_taskbar_ext; [apply fmap_fst_set_second | done].
  - apply orb_false_iff in E as [_ ->]. cbn. by rewrite orb_false_r.
Qed.

(** X15.  After a decision pass [should_show_peek] is set exactly when peek
    is enabled outright, or peek is dynamic and some enumerated window
    counts as maximised (on the main taskbar's monitor, when peek is
    restricted to the main monitor). *)
Theorem decision_pass_should_show_peek (cfg : Config) (os : Desktop) (g : Globals) :
  10 ≤ counter g →
  should_show_peek (SetTaskbarBlur cfg os g).1 = true
  ↔ PEEK cfg = Enabled
    ∨ (PEEK cfg = Dynamic
       ∧ ∃ w, w ∈ EnumWindows_order os
              ∧ counts_as_maximised os (taskbars g) w
              ∧ (PEEK_ONLY_MAIN cfg = true →
                 ∃ a, taskbars g !! monitor os w = Some (main_taskbar g, a))).
Proof.
  intros Hc. unfold SetTaskbarBlur. cbn.
  rewrite (proj2 (Z.leb_le _ _) Hc), decision_pass_peek_flag.
  rewrite orb_true_iff, andb_true_iff, !bool_decide_eq_true, existsb_exists.
  assert (∀ w, on_main_taskbar os g w = true
               ↔ ∃ a, taskbars g !! monitor os w = Some (main_taskbar g, a)) as Hmain.
  { intros w. unfold on_main_taskbar.
    destruct (taskbars g !! monitor os w) as [[s a] |]; cbn.
    - rewrite Z.eqb_eq. split; [intros ->; by exists a | by intros [b [= -> _]]].
    - split; [done | by intros [a ?]]. }
  split.
  - intros [? | [HD (w & Hin & [Hw Hm]%andb_true_iff)]]; [by left | right].
    split; [done |]. exists w. split; [by apply list_elem_of_In |].
    split; [by apply counts_as_maximised_iff |].
    intros Honly. rewrite Honly in Hm. cbn in Hm. by apply Hmain.
  - intros [? | [HD (w & Hin & Hw & Hm)]]; [by left | right].
    split; [done |]. exists w. split; [by apply list_elem_of_In |].
    apply andb_true_iff. split; [by apply counts_as_maximised_iff |].
    destruct (PEEK_ONLY_MAIN cfg); [| done]. cbn. apply Hmain. by apply Hm.
Qed.

Lemma decision_pass_should_show_peek_witness :
  should_show_peek (SetTaskbarBlur all_enabled search_desktop
                      (first_cycle search_desktop)).1 = true.
Proof.
  apply (decision_pass_should_show_peek all_enabled search_desktop
           (first_cycle search_desktop)).
  - vm_compute. discriminate.
  - right. split; [reflexivity |]. exists 5. split; [compute_done |].
    split; [| discriminate].
    repeat split; try reflexivity. vm_compute. by eexists.
Defined.

(** ** The order of the rules *)

Lemma scan_disabled (cfg : Config) (os : Desktop) (ws : list Window) (g : Globals) :
  MAXIMISED_ENABLED cfg = false →
  taskbars (foldl (EnumWindowsProcess cfg os) g ws) = taskbars g.
Proof.
  intros Hoff. revert g. induction ws as [| w ws IH]; intros g; [done |].
  cbn. by rewrite IH, EnumWindowsProcess_taskbars, Hoff, andb_false_r.
Qed.

Lemma scanned_lookup (cfg : Config) (os : Desktop) (g : Globals) (k : Z) :
  taskbars (scanned cfg os g) !! k
  = (λ p, (p.1, if MAXIMISED_ENABLED cfg
                   && existsb (λ w, maximised_on_taskbar_monitor os (taskbars g) w
                                    && (monitor os w =? k)) (EnumWindows_order os)
                then MAXIMISED_APPEARANCE else REGULAR_APPEARANCE))
    <$> taskbars g !! k.
Proof.
  unfold scanned, EnumWindows.
  destruct (MAXIMISED_ENABLED cfg) eqn:Hen; cbn [orb andb].
  - rewrite scan_lookup by done. cbn. rewrite lookup_fmap.
    rewrite (existsb_pointwise _
               (λ w, maximised_on_taskbar_monitor os (taskbars g) w
                     && (monitor os w =? k)))
      by (intros x; f_equal; apply maximised_on_taskbar_monitor_ext,
                               fmap_fst_set_second).
    by destruct (taskbars g !! k) as [[s a] |].
  - destruct (bool_decide (PEEK cfg = Dynamic)); [rewrite scan_disabled by done |];
      cbn; rewrite lookup_fmap; by destruct (taskbars g !! k) as [[s a] |].
Qed.

Lemma lookup_set_second_surfaces (a : APPEARANCE) (t' t : gmap Z (Z * APPEARANCE))
    (k : Z) :
  fst <$> t' = fst <$> t →
  (set_second a <$> t') !! k = (λ p, (p.1, a)) <$> t !! k.
Proof.
  intros E. rewrite (set_second_fmap_ext a t' t E), lookup_fmap.
  by destruct (t !! k) as [[s b] |].
Qed.

(** X16.  The decision pass as one rule per monitor: the appearance of
    every taskbar of the registry after the pass is the one given by the
    rules in their order of precedence (Timeline, peek override, Start
    rule on the foreground monitor, maximised window, regular), and the
    taskbar window itself is unchanged. *)
Theorem decision_pass_priority (cfg : Config) (os : Desktop) (window : Window)
    (g : Globals) (k : Z) :
  taskbars (decision_pass cfg os window g) !! k
  = (λ p, (p.1, decided_appearance cfg os window g k)) <$> taskbars g !! k.
Proof.
  rewrite decision_pass_eq. cbn. unfold decided_appearance.
  pose proof (before_peek_rule_surfaces cfg os window g) as Hsurf.
  rewrite timeline_rule_taskbars, peek_rule_taskbars.
  destruct (before_peek_rule_flags cfg os window g) as [-> _].
  destruct (timeline_fires cfg os).
  { apply lookup_set_second_surfaces.
    destruct (_ && _); [by rewrite fmap_fst_set_second | done]. }
  destruct (MAXIMISED_ENABLED cfg && MAXIMISED_REGULAR_ON_PEEK cfg && peek_active g).
  { by apply lookup_set_second_surfaces. }
  unfold before_peek_rule. rewrite foreground_rule_taskbars.
  destruct (scanned_flags cfg os g) as [_ ->].
  rewrite (bool_decide_ext _ (is_Some (taskbars g !! monitor os (ForegroundWindow os))))
    by apply is_Some_surfaces, scanned_surfaces.
  rewrite (maximised_on_taskbar_monitor_ext os _ (taskbars g))
    by apply scanned_surfaces.
  destruct (negb (ForegroundWindow os =? NullWindow)
            && bool_decide (is_Some (taskbars g !! monitor os (ForegroundWindow os)))
            && maximised_on_taskbar_monitor os (taskbars g) window);
    cbn [andb]; [| apply scanned_lookup].
  rewrite lookup_alter.
  destruct (decide (monitor os (ForegroundWindow os) = k)) as [Hk | Hk].
  - rewrite (proj2 (Z.eqb_eq _ _) Hk), Hk, scanned_lookup.
    by destruct (taskbars g !! k) as [[s a] |].
  - rewrite (proj2 (Z.eqb_neq _ _) Hk). apply scanned_lookup.
Qed.

(** X17.  The Cortana appearance never reaches a taskbar: a registry from
    [RefreshHandles] has none, and poll cycles, whatever the desktops and
    the configuration, never put one there; so the loop of lines 399-403
    never applies [Config::CORTANA_APPEARANCE]. *)
Theorem cortana_never_applied (cfg : Config) (os0 : Desktop) (g0 : Globals)
    (desktops : list Desktop) (k : Z) (surface : Window) :
  taskbars (poll cfg (RefreshHandles os0 g0) desktops) !! k
  ≠ Some (surface, CORTANA_APPEARANCE).
Proof.
  revert k surface.
  induction desktops as [| os desktops IH] using rev_ind; intros k surface.
  - cbn. rewrite RefreshHandles_taskbars. intros H.
    apply bind_all_origin in H as [(_ & _ & ?) | H]; [done |].
    by rewrite lookup_empty in H.
  - rewrite poll_snoc. unfold SetTaskbarBlur. cbn.
    destruct (10 <=? counter _); [apply decision_pass_never_cortana | apply IH].
Qed.

(** * Leaving the program *)

Lemma restore_all_requests (os : Desktop) (t : gmap Z (Z * APPEARANCE))
    (memo : gmap Z bool) :
  restore_all os t memo
  = blur_each os ((λ e : Z * (Z * APPEARANCE), (e.2.1, (ACCENT_NORMAL, 0)))
                  <$> map_to_list t) memo.
Proof. unfold restore_all, blur_each. by rewrite foldl_fmap. Qed.

Lemma restore_requests_NoDup (t : gmap Z (Z * APPEARANCE)) :
  distinct_surfaces t →
  NoDup ((λ e : Z * (Z * APPEARANCE), (e.2.1, (ACCENT_NORMAL, 0)))
         <$> map_to_list t).*1.
Proof.
  intros Hd. rewrite <- list_fmap_compose.
  apply NoDup_fmap_2_strong; [| apply NoDup_map_to_list].
  intros [k1 [w1 a1]] [k2 [w2 a2]] H1%elem_of_map_to_list H2%elem_of_map_to_list E.
  cbn in E. subst w2. assert (k1 = k2) as -> by eauto. congruence.
Qed.

(** X18.  Leaving the program.  For a new instance nothing is saved and no
    native call is made.  Otherwise the configuration is saved unless the
    reason is [UserActionNoSave], and the restoration never issues an
    attribute call; when the primitive is available and no taskbar window
    is bound to two monitors it sends one theme refresh to each taskbar
    window not recorded as normal, none to the others, and afterwards every
    taskbar window of the registry is recorded as normal. *)
Theorem leave_restores (exit_reason : EXITREASON) (os : Desktop) (g : Globals) :
  (exit_reason = NewInstance → leave exit_reason os g = (false, (is_normal g, [])))
  ∧ (exit_reason ≠ NewInstance →
     (leave exit_reason os g).1 = bool_decide (exit_reason ≠ UserActionNoSave)
     ∧ attribute_calls (leave exit_reason os g).2.2 = 0%nat
     ∧ (SetWindowCompositionAttribute_available os = true →
        distinct_surfaces (taskbars g) →
        (leave exit_reason os g).2.2
        = map_to_list (taskbars g)
          ≫= (λ e, if not_known_normal (is_normal g) e.2.1
                   then [send_WM_THEMECHANGED e.2.1] else [])
        ∧ ∀ k w a, taskbars g !! k = Some (w, a) →
            (leave exit_reason os g).2.1 !! w = Some true)).
Proof.
  unfold leave. split.
  - intros ->. done.
  - intros Hne. rewrite bool_decide_eq_true_2 by done. cbn [fst snd].
    split; [done |]. rewrite restore_all_requests. unfold blur_each. split.
    + assert (∀ l m cs, attribute_calls cs = 0%nat →
                attribute_calls
                  (foldl (blur_step os) (m, cs)
                     ((λ e : Z * (Z * APPEARANCE), (e.2.1, (ACCENT_NORMAL, 0))) <$> l)).2
                = 0%nat) as Hnone; [| by apply Hnone].
      induction l as [| e l IH]; intros m cs Hcs; [done |].
      cbn. apply IH. unfold blur_step, SetWindowBlur. cbn.
      unfold attribute_calls in *. rewrite List.filter_app, length_app, Hcs.
      destruct (SetWindowCompositionAttribute_available os); [| done].
      by destruct (not_known_normal m e.2.1).
    + intros Hav Hd. pose proof (restore_requests_NoDup _ Hd) as Hnd.
      rewrite blur_memo, blur_calls, Hav by done. cbn [app]. split.
      * rewrite list_fmap_bind. apply bind_ext_in. intros e _.
        unfold calls_for, SetWindowBlur. rewrite Hav. cbn.
        by destruct (not_known_normal (is_normal g) e.2.1).
      * intros k w a Hk.
        rewrite (record_all_lookup _ _ (w, (ACCENT_NORMAL, 0)) Hnd).
        -- by rewrite bool_decide_eq_true_2.
        -- apply list_elem_of_fmap. exists (k, (w, a)).
           split; [done | by apply elem_of_map_to_list].
Qed.

Lemma leave_restores_witness :
  (leave UserAction search_desktop (first_cycle search_desktop)).1
  = bool_decide (UserAction ≠ UserActionNoSave)
  ∧ attribute_calls (leave UserAction search_desktop (first_cycle search_desktop)).2.2
    = 0%nat
  ∧ ∀ k w a, taskbars (first_cycle search_desktop) !! k = Some (w, a) →
      (leave UserAction search_desktop (first_cycle search_desktop)).2.1 !! w
      = Some true.
Proof.
  destruct (leave_restores UserAction search_desktop (first_cycle search_desktop))
    as [_ H].
  destruct H as (H1 & H2 & H3); [discriminate |].
  destruct H3 as [_ H4]; [reflexivity | apply first_cycle_distinct |].
  by repeat split.
Defined.

Example leave_samples :
  leave NewInstance search_desktop search_in_foreground
  = (false, (is_normal search_in_foreground, []))
  ∧ (leave UserAction search_desktop search_in_foreground).1 = true
  ∧ (leave UserActionNoSave search_desktop search_in_foreground).1 = false
  ∧ (leave UserAction search_desktop search_in_foreground).2.2
    = [send_WM_THEMECHANGED 100].
Proof. repeat split; vm_compute; reflexivity. Qed.

(** * The autostart menu item *)

(** X19.  The autostart item can be used exactly in the states [Enabled]
    and [Disabled], which are exactly the states in which its text is
    "Open at boot"; it is ticked exactly when startup is enabled, by the
    user or by policy; and whenever it can be used, choosing it requests
    the state whose tick is the opposite of the one shown. *)
Theorem autostart_item (state : Autostart.StartupState) :
  (autostart_controls_enabled state = true
   ↔ state = Autostart.Enabled ∨ state = Autostart.Disabled)
  ∧ (autostart_controls_enabled state = true ↔ autostart_text state = "Open at boot")
  ∧ (autostart_toggle state = true
     ↔ state = Autostart.Enabled ∨ state = Autostart.EnabledByPolicy)
  ∧ (autostart_controls_enabled state = true →
     autostart_controls_enabled (autostart_click state) = true
     ∧ autostart_toggle (autostart_click state) = negb (autostart_toggle state)).
Proof.
  destruct state; cbn; repeat split; intros; try done;
    try (by left); try (by right); try (by destruct H).
Qed.

Lemma autostart_item_witness :
  autostart_controls_enabled (autostart_click Autostart.Enabled) = true
  ∧ autostart_toggle (autostart_click Autostart.Enabled)
    = negb (autostart_toggle Autostart.Enabled).
Proof.
  destruct (autostart_item Autostart.Enabled) as (_ & _ & _ & H).
  apply H. reflexivity.
Defined.

(** * The configuration files *)

Lemma string_app_cons (x : ascii) (a b : string) :
  String x a +:+ b = String x (a +:+ b).
Proof. reflexivity. Qed.

Lemma string_app_assoc (a b c : string) : (a +:+ b) +:+ c = a +:+ (b +:+ c).
Proof.
  induction a as [| x a IH]; [done |]. by rewrite !string_app_cons, IH.
Qed.

Lemma string_length_app (a b : string) :
  String.length (a +:+ b) = (String.length a + String.length b)%nat.
Proof.
  induction a as [| x a IH]; [done |].
  rewrite string_app_cons. cbn [String.length]. by rewrite IH.
Qed.

Lemma keep_app (pre : string) (c : ascii) (post : string) :
  keep (String.length pre + 1) (pre +:+ String c post) = pre +:+ String c "".
Proof.
  induction pre as [| x pre IH]; [done |].
  rewrite !string_app_cons. cbn [String.length Nat.add keep]. by rewrite IH.
Qed.

Lemma find_last_of_from_spec (s chars : string) (pos found : Z) :
  (no_char_in s chars = true ∧ find_last_of_from s chars pos found = found)
  ∨ ∃ pre c post,
      s = pre +:+ String c post ∧ char_in c chars = true
      ∧ no_char_in post chars = true
      ∧ find_last_of_from s chars pos found = pos + Z.of_nat (String.length pre).
Proof.
  revert pos found. induction s as [| x s IH]; intros pos found; [by left |].
  cbn [find_last_of_from no_char_in].
  destruct (IH (pos + 1) (if char_in x chars then pos else found))
    as [[Hno ->] | (pre & c & post & -> & Hc & Hpost & ->)].
  - destruct (char_in x chars) eqn:Hx.
    + right. exists "", x, s. cbn [String.length]. repeat split; try done. lia.
    + left. by rewrite Hno.
  - right. exists (String x pre), c, post. rewrite string_app_cons.
    cbn [String.length]. repeat split; try done. lia.
Qed.

(** X20.  The folder of the executable (lines 146-147): [erase] never
    throws, and the result is the location up to and including its last
    slash or backslash: the location is the result followed by a name
    without either, and the result is empty (when the location has no
    separator at all) or ends in a separator. *)
Theorem exe_folder_splits (ExeLocation : string) :
  Z.of_nat (String.length ExeLocation) < 2 ^ 64 - 1 →
  ∃ folder name,
    exe_folder ExeLocation = Some folder
    ∧ ExeLocation = folder +:+ name
    ∧ no_char_in name "/\" = true
    ∧ ((folder = "" ∧ no_char_in ExeLocation "/\" = true)
       ∨ ∃ pre c, folder = pre +:+ String c "" ∧ char_in c "/\" = true).
Proof.
  intros Hlen. unfold exe_folder, find_last_of.
  destruct (find_last_of_from_spec ExeLocation "/\" 0 npos)
    as [[Hno ->] | (pre & c & post & -> & Hc & Hpost & ->)].
  - exists "", ExeLocation. change (size_t (npos + 1)) with 0.
    unfold erase. rewrite (proj2 (Z.leb_le _ _)) by lia.
    repeat split; try done. by left.
  - exists (pre +:+ String c ""), post.
    rewrite string_length_app in Hlen. cbn [String.length] in Hlen.
    unfold size_t. rewrite Z.mod_small by lia. unfold erase.
    rewrite (proj2 (Z.leb_le _ _))
      by (rewrite string_length_app; cbn [String.length]; lia).
    replace (Z.to_nat (0 + Z.of_nat (String.length pre) + 1))
      with (String.length pre + 1)%nat by lia.
    rewrite keep_app, string_app_assoc. repeat split; try done.
    right. by exists pre, c.
Qed.

Lemma exe_folder_splits_witness :
  ∃ folder name,
    exe_folder "C:\Program Files\TranslucentTB\TranslucentTB.exe" = Some folder
    ∧ "C:\Program Files\TranslucentTB\TranslucentTB.exe" = folder +:+ name
    ∧ no_char_in name "/\" = true
    ∧ ((folder = ""
        ∧ no_char_in "C:\Program Files\TranslucentTB\TranslucentTB.exe" "/\" = true)
       ∨ ∃ pre c, folder = pre +:+ String c "" ∧ char_in c "/\" = true).
Proof.
  apply (exe_folder_splits "C:\Program Files\TranslucentTB\TranslucentTB.exe").
  vm_compute. reflexivity.
Defined.

Example exe_folder_samples :
  exe_folder "C:\Program Files\TranslucentTB\TranslucentTB.exe"
  = Some "C:\Program Files\TranslucentTB\"
  ∧ exe_folder "D:/tools/ttb.exe" = Some "D:/tools/"
  ∧ exe_folder "TranslucentTB.exe" = Some "".
Proof. repeat split. Qed.

Lemma exe_folder_is_Some (ExeLocation : string) :
  Z.of_nat (String.length ExeLocation) < 2 ^ 64 - 1 →
  is_Some (exe_folder ExeLocation).
Proof.
  intros Hlen. unfold exe_folder, find_last_of, erase.
  destruct (find_last_of_from_spec ExeLocation "/\" 0 npos)
    as [[_ ->] | (pre & c & post & E & _ & _ & ->)].
  - change (size_t (npos + 1)) with 0.
    rewrite (proj2 (Z.leb_le _ _)) by lia. by eexists.
  - rewrite E, string_length_app in Hlen. cbn [String.length] in Hlen.
    unfold size_t. rewrite Z.mod_small by lia.
    rewrite (proj2 (Z.leb_le _ _)); [by eexists |].
    rewrite E, string_length_app. cbn [String.length]. lia.
Qed.

Lemma GetPaths_inv (sys : Install) (run : Paths) :
  GetPaths sys = Some run →
  PathAllocCombine sys (config_folder run) (CONFIG_FILE sys) = Some (config_file run)
  ∧ PathAllocCombine sys (config_folder run) (EXCLUDE_FILE sys)
    = Some (exclude_file run).
Proof.
  unfold GetPaths. intros H.
  destruct (RoamingAppData sys) as [appData |]; [| done]. cbn in H.
  destruct (PathAllocCombine sys appData (NAME sys)) as [folder |]; [| done].
  cbn in H.
  destruct (PathAllocCombine sys folder (CONFIG_FILE sys)) as [cf |] eqn:E1;
    [| done]. cbn in H.
  destruct (PathAllocCombine sys folder (EXCLUDE_FILE sys)) as [ef |] eqn:E2;
    [| done]. cbn in H.
  by simplify_eq/=.
Qed.

(** What one [ApplyStock] can do to the disk: create the configuration
    folder, and write the file named by the configuration folder and
    [filename] with the content of some existing file. *)
Lemma ApplyStock_effect (sys : Install) (run : Paths) (filename : string)
    (d d' : Disk) :
  ApplyStock sys run filename d = Some d' →
  (directories d' = directories d
   ∨ directories d' = {[config_folder run]} ∪ directories d)
  ∧ (files d' = files d
     ∨ ∃ stock target content,
         PathAllocCombine sys (config_folder run) filename = Some target
         ∧ files d !! stock = Some content
         ∧ files d' = <[target := content]> (files d)).
Proof.
  unfold ApplyStock, CreateDirectory, CopyFile. intros H.
  destruct (GetExeLocation sys) as [location |]; [| done]. cbn in H.
  destruct (exe_folder location) as [folder |]; [| done].
  cbn in H. injection H as <-.
  destruct (PathAllocCombine sys folder filename) as [stock |]; [| by split; left].
  destruct (PathAllocCombine sys (config_folder run) filename) as [target |];
    [| by split; left].
  destruct (negb (IsDirectory d (config_folder run)));
    [destruct (CreateDirectory_succeeds sys d (config_folder run));
     [| by split; left] |]; cbn;
    (destruct (files d !! stock) as [content |] eqn:Hs;
     [destruct (CopyFile_succeeds sys _ stock target) |]); cbn;
    (split;
     [first [by left | by right]
     | first [by left | right; by exists stock, target, content]]).
Qed.

(** X21.  Whether [CheckAndRunWelcome] returns, and what it answers.
    With the configuration folder missing and the licence refused it
    answers false and leaves the disk as it was.  Otherwise, with both
    configuration files present it answers true and leaves the disk as it
    was; with one of them missing it calls [ApplyStock], and then it
    returns, answering true, when [win32::GetExeLocation] gives the
    location, and does not return when [win32::GetExeLocation] fails. *)
Theorem CheckAndRunWelcome_result (sys : Install) (run : Paths) (d : Disk) :
  (∀ location, GetExeLocation sys = Some location →
     Z.of_nat (String.length location) < 2 ^ 64 - 1) →
  (IsDirectory d (config_folder run) || MessageBox_IDYES sys = false →
   CheckAndRunWelcome sys run d = Some (false, d))
  ∧ (IsDirectory d (config_folder run) || MessageBox_IDYES sys = true →
     FileExists d (config_file run) && FileExists d (exclude_file run) = true →
     CheckAndRunWelcome sys run d = Some (true, d))
  ∧ (IsDirectory d (config_folder run) || MessageBox_IDYES sys = true →
     FileExists d (config_file run) && FileExists d (exclude_file run) = false →
     GetExeLocation sys = None →
     CheckAndRunWelcome sys run d = None)
  ∧ (IsDirectory d (config_folder run) || MessageBox_IDYES sys = true →
     is_Some (GetExeLocation sys) →
     ∃ d', CheckAndRunWelcome sys run d = Some (true, d')).
Proof.
  intros Hlen.
  assert (is_Some (GetExeLocation sys) →
          ∀ filename d0, is_Some (ApplyStock sys run filename d0)) as Htotal.
  { intros [location Hloc] filename d0. unfold ApplyStock. rewrite Hloc. cbn.
    destruct (exe_folder_is_Some location (Hlen location Hloc)) as [folder ->].
    by eexists. }
  assert (GetExeLocation sys = None →
          ∀ filename d0, ApplyStock sys run filename d0 = None) as Hnone.
  { intros Hloc filename d0. unfold ApplyStock. by rewrite Hloc. }
  unfold CheckAndRunWelcome.
  destruct (IsDirectory d (config_folder run) || MessageBox_IDYES sys) eqn:Hgo.
  - apply orb_true_iff in Hgo.
    replace (negb (IsDirectory d (config_folder run)) && negb (MessageBox_IDYES sys))
      with false
      by (destruct Hgo as [-> | ->]; [done | by rewrite andb_false_r]).
    split; [done |]. split; [| split].
    + intros _ [H1 H2]%andb_true_iff. rewrite H1. cbn. rewrite H2. by cbn.
    + intros _ Hmiss Hloc.
      destruct (FileExists d (config_file run)); cbn [negb].
      * cbn in Hmiss. cbn. rewrite Hmiss. cbn. by rewrite Hnone.
      * by rewrite Hnone.
    + intros _ Hloc.
      destruct (negb (FileExists d (config_file run)));
        [destruct (Htotal Hloc (CONFIG_FILE sys) d) as [d1 ->] | set (d1 := d)];
        cbn;
        (destruct (negb (FileExists d1 (exclude_file run)));
         [destruct (Htotal Hloc (EXCLUDE_FILE sys) d1) as [d2 ->] | set (d2 := d1)];
         cbn; by exists d2).
  - apply orb_false_iff in Hgo as [-> ->]. cbn. by repeat split.
Qed.

Lemma CheckAndRunWelcome_result_witness :
  ∃ d', CheckAndRunWelcome fresh_install fresh_paths fresh_disk = Some (true, d').
Proof.
  destruct (CheckAndRunWelcome_result fresh_install fresh_paths fresh_disk)
    as (_ & _ & _ & H).
  - intros location [= <-]. vm_compute. reflexivity.
  - apply H; [reflexivity | by eexists].
Defined.

(** The first run when the location of the executable cannot be
    obtained: the licence is accepted, a configuration file is missing,
    and the program dies inside [ApplyStock]. *)
Example first_run_without_location :
  CheckAndRunWelcome lost_install fresh_paths fresh_disk = None.
Proof. reflexivity. Qed.

(** X22.  With the paths [GetPaths] computes, [CheckAndRunWelcome] never
    changes a file that exists: every file present before has its content
    afterwards; the only files it can add are the configuration file and
    the exclusion file, the only directory the configuration folder, and
    no directory disappears. *)
Theorem CheckAndRunWelcome_preserves (sys : Install) (run : Paths)
    (d d' : Disk) (b : bool) :
  GetPaths sys = Some run →
  CheckAndRunWelcome sys run d = Some (b, d') →
  (∀ p content, files d !! p = Some content → files d' !! p = Some content)
  ∧ (∀ p, is_Some (files d' !! p) →
       is_Some (files d !! p) ∨ p = config_file run ∨ p = exclude_file run)
  ∧ directories d ⊆ directories d'
  ∧ directories d' ⊆ {[config_folder run]} ∪ directories d.
Proof.
  intros Hpaths Hrun. destruct (GetPaths_inv sys run Hpaths) as [Hcf Hef].
  assert (∀ filename target d0 d1,
            PathAllocCombine sys (config_folder run) filename = Some target →
            files d0 !! target = None →
            ApplyStock sys run filename d0 = Some d1 →
            (∀ p content, files d0 !! p = Some content → files d1 !! p = Some content)
            ∧ (∀ p, is_Some (files d1 !! p) → is_Some (files d0 !! p) ∨ p = target)
            ∧ directories d0 ⊆ directories d1
            ∧ directories d1 ⊆ {[config_folder run]} ∪ directories d0) as Hone.
  { intros filename target d0 d1 Ht Hnone Happly.
    destruct (ApplyStock_effect _ _ _ _ _ Happly) as [Hd Hf].
    assert (directories d0 ⊆ directories d1
            ∧ directories d1 ⊆ {[config_folder run]} ∪ directories d0) as [? ?]
      by (destruct Hd as [-> | ->];
          (split; [first [done | apply union_subseteq_r] ..])).
    destruct Hf as [-> | (stock & target' & content & Ht' & _ & ->)];
      [by eauto 10 |].
    rewrite Ht in Ht'. injection Ht' as <-.
    split; [| split; [| done]].
    - intros p c Hp. rewrite lookup_insert_ne; [done | congruence].
    - intros p Hp. destruct (decide (target = p)) as [-> | Hne]; [by right |].
      rewrite lookup_insert_ne in Hp by done. by left. }
  assert (∀ p d0, FileExists d0 p = false → files d0 !! p = None) as Hmissing.
  { intros p d0 H. unfold FileExists in H.
    apply bool_decide_eq_false in H. by apply eq_None_not_Some. }
  unfold CheckAndRunWelcome in Hrun.
  destruct (negb (IsDirectory d (config_folder run)) && negb (MessageBox_IDYES sys));
    [injection Hrun as <- <-;
     repeat split; [eauto | eauto | done | apply union_subseteq_r] |].
  destruct (FileExists d (config_file run)) eqn:E1; cbn [negb] in Hrun.
  - cbn in Hrun.
    destruct (FileExists d (exclude_file run)) eqn:E2; cbn [negb] in Hrun.
    + cbn in Hrun. injection Hrun as <- <-.
      repeat split; [eauto | eauto | done | apply union_subseteq_r].
    + destruct (ApplyStock sys run (EXCLUDE_FILE sys) d) as [d2 |] eqn:A2;
        [| done]. cbn in Hrun. injection Hrun as <- <-.
      destruct (Hone _ _ _ _ Hef (Hmissing _ _ E2) A2) as (H1 & H2 & H3 & H4).
      repeat split; try done. intros p Hp. destruct (H2 p Hp); eauto.
  - destruct (ApplyStock sys run (CONFIG_FILE sys) d) as [d1 |] eqn:A1; [| done].
    cbn in Hrun.
    destruct (Hone _ _ _ _ Hcf (Hmissing _ _ E1) A1) as (H1 & H2 & H3 & H4).
    destruct (FileExists d1 (exclude_file run)) eqn:E2; cbn [negb] in Hrun.
    + cbn in Hrun. injection Hrun as <- <-.
      repeat split; try done. intros p Hp. destruct (H2 p Hp); eauto.
    + destruct (ApplyStock sys run (EXCLUDE_FILE sys) d1) as [d2 |] eqn:A2;
        [| done]. cbn in Hrun. injection Hrun as <- <-.
      destruct (Hone _ _ _ _ Hef (Hmissing _ _ E2) A2) as (G1 & G2 & G3 & G4).
      repeat split.
      * intros p c Hp. eauto.
      * intros p Hp. destruct (G2 p Hp) as [Hp1 | ->]; [| eauto].
        destruct (H2 p Hp1); eauto.
      * by etrans.
      * etrans; [exact G4 |].
        apply union_least; [apply union_subseteq_l | exact H4].
Qed.

Lemma CheckAndRunWelcome_preserves_witness :
  files (default fresh_disk
           (snd <$> CheckAndRunWelcome fresh_install fresh_paths fresh_disk))
    !! "C:\Program Files\TranslucentTB\config.cfg"
  = Some "stock config".
Proof.
  destruct (CheckAndRunWelcome fresh_install fresh_paths fresh_disk)
    as [[b d'] |] eqn:E; [| done].
  destruct (CheckAndRunWelcome_preserves fresh_install fresh_paths fresh_disk d' b)
    as (H & _).
  - vm_compute. reflexivity.
  - exact E.
  - apply H. vm_compute. reflexivity.
Defined.

Lemma ApplyStock_success (sys : Install) (run : Paths) (filename : string)
    (d : Disk) (folder stock target : string) :
  GetExeLocation sys ≫= exe_folder = Some folder →
  PathAllocCombine sys folder filename = Some stock →
  PathAllocCombine sys (config_folder run) filename = Some target →
  is_Some (files d !! stock) →
  (∀ d0 p, CreateDirectory_succeeds sys d0 p = true) →
  (∀ d0 a b, CopyFile_succeeds sys d0 a b = true) →
  ∃ d', ApplyStock sys run filename d = Some d'
        ∧ is_Some (files d' !! target)
        ∧ (∀ p, is_Some (files d !! p) → is_Some (files d' !! p))
        ∧ config_folder run ∈ directories d'.
Proof.
  intros Hexe Hstock Htarget [content Hc] Hmk Hcp.
  unfold ApplyStock, CreateDirectory, CopyFile.
  destruct (GetExeLocation sys) as [location |]; [| done]. cbn in Hexe.
  cbn. rewrite Hexe. cbn. rewrite Hstock, Htarget, Hmk.
  destruct (IsDirectory d (config_folder run)) eqn:Hdir; cbn;
    rewrite Hc, Hcp; eexists; (split; [reflexivity |]); cbn;
    (split; [rewrite lookup_insert_eq; by eexists |]);
    (split; [intros p Hp; rewrite lookup_insert; case_decide; [by eexists | done] |]).
  - unfold IsDirectory in Hdir. by apply bool_decide_eq_true in Hdir.
  - apply elem_of_union_l. by apply elem_of_singleton.
Qed.

(** X23.  A complete first run.  When the stock files lie beside the
    executable, the paths combine, and directory creation and copying go
    through, [CheckAndRunWelcome] (with the folder present or the licence
    accepted) answers true and leaves both configuration files on the
    disk; if one of them was missing, the configuration folder exists
    afterwards. *)
Theorem CheckAndRunWelcome_installs (sys : Install) (run : Paths) (d : Disk)
    (folder stock_config stock_exclude : string) :
  GetPaths sys = Some run →
  GetExeLocation sys ≫= exe_folder = Some folder →
  PathAllocCombine sys folder (CONFIG_FILE sys) = Some stock_config →
  PathAllocCombine sys folder (EXCLUDE_FILE sys) = Some stock_exclude →
  is_Some (files d !! stock_config) →
  is_Some (files d !! stock_exclude) →
  (∀ d0 p, CreateDirectory_succeeds sys d0 p = true) →
  (∀ d0 a b, CopyFile_succeeds sys d0 a b = true) →
  IsDirectory d (config_folder run) || MessageBox_IDYES sys = true →
  ∃ d', CheckAndRunWelcome sys run d = Some (true, d')
        ∧ is_Some (files d' !! config_file run)
        ∧ is_Some (files d' !! exclude_file run)
        ∧ (files d !! config_file run = None ∨ files d !! exclude_file run = None →
           config_folder run ∈ directories d').
Proof.
  intros Hpaths Hexe Hs1 Hs2 He1 He2 Hmk Hcp Hgo.
  destruct (GetPaths_inv sys run Hpaths) as [Hcf Hef].
  assert (∀ p d0, FileExists d0 p = true ↔ is_Some (files d0 !! p)) as Hex
    by (intros; unfold FileExists; apply bool_decide_eq_true).
  assert (∀ p d0, FileExists d0 p = true → files d0 !! p = None → False) as Hcontra.
  { intros p d0 H%Hex E. rewrite E in H. by destruct H. }
  unfold CheckAndRunWelcome.
  replace (negb (IsDirectory d (config_folder run)) && negb (MessageBox_IDYES sys))
    with false by (by destruct (IsDirectory d _), (MessageBox_IDYES sys)).
  destruct (FileExists d (config_file run)) eqn:E1; cbn [negb].
  - cbn. destruct (FileExists d (exclude_file run)) eqn:E2; cbn [negb].
    + cbn. exists d. split; [done |]. split; [by apply Hex |].
      split; [by apply Hex |]. intros [H | H]; exfalso; eauto.
    + destruct (ApplyStock_success sys run (EXCLUDE_FILE sys) d folder
                  stock_exclude (exclude_file run))
        as (d2 & -> & Hnew & Hkeep & Hdir); try done.
      cbn. exists d2. split; [done |]. split; [by apply Hkeep, Hex |]. by split.
  - destruct (ApplyStock_success sys run (CONFIG_FILE sys) d folder
                stock_config (config_file run))
      as (d1 & -> & Hnew1 & Hkeep1 & Hdir1); try done.
    cbn. destruct (FileExists d1 (exclude_file run)) eqn:E2; cbn [negb].
    + cbn. exists d1. split; [done |]. split; [done |]. split; [by apply Hex |].
      done.
    + destruct (ApplyStock_success sys run (EXCLUDE_FILE sys) d1 folder
                  stock_exclude (exclude_file run))
        as (d2 & -> & Hnew2 & Hkeep2 & Hdir2); try done; [by apply Hkeep1 |].
      cbn. exists d2. split; [done |]. split; [by apply Hkeep2 |]. by split.
Qed.

Lemma CheckAndRunWelcome_installs_witness :
  ∃ d', CheckAndRunWelcome fresh_install fresh_paths fresh_disk = Some (true, d')
        ∧ is_Some (files d' !! config_file fresh_paths)
        ∧ is_Some (files d' !! exclude_file fresh_paths)
        ∧ (files fresh_disk !! config_file fresh_paths = None
           ∨ files fresh_disk !! exclude_file fresh_paths = None →
           config_folder fresh_paths ∈ directories d').
Proof.
  apply (CheckAndRunWelcome_installs fresh_install fresh_paths fresh_disk
           "C:\Program Files\TranslucentTB\"
           "C:\Program Files\TranslucentTB\config.cfg"
           "C:\Program Files\TranslucentTB\dynamic-ws-exclude.csv").
  - vm_compute. reflexivity.
  - vm_compute. reflexivity.
  - vm_compute. reflexivity.
  - vm_compute. reflexivity.
  - vm_compute. by eexists.
  - vm_compute. by eexists.
  - reflexivity.
  - reflexivity.
  - reflexivity.
Defined.

(** The first run on [fresh_disk], step by step. *)
Example first_run :
  GetPaths fresh_install = Some fresh_paths
  ∧ (fst <$> CheckAndRunWelcome fresh_install fresh_paths fresh_disk) = Some true
  ∧ (snd <$> CheckAndRunWelcome fresh_install fresh_paths fresh_disk)
    ≫= (λ d, files d !! config_file fresh_paths) = Some "stock config"
  ∧ (snd <$> CheckAndRunWelcome fresh_install fresh_paths fresh_disk)
    ≫= (λ d, files d !! exclude_file fresh_paths) = Some "stock exclude".
Proof. repeat split; vm_compute; reflexivity. Qed.

(** * The memo *)

Lemma record_all_keeps (l : list (Window * (ACCENT * Z))) (m : gmap Z bool)
    (w : Window) :
  is_Some (m !! w) → is_Some (foldl record_request m l !! w).
Proof.
  revert m. induction l as [| r l IH]; intros m Hw; [done |].
  cbn. apply IH. unfold record_request. rewrite lookup_insert.
  case_decide; [by eexists | done].
Qed.

(** X24.  The dispatcher's memo never forgets a window: an entry stays
    through every poll cycle and every rebuild of the registry, also for
    windows that are no longer taskbars. *)
Theorem is_normal_never_shrinks (cfg : Config) (os : Desktop) (g : Globals)
    (w : Window) :
  is_Some (is_normal g !! w) →
  is_Some (is_normal (SetTaskbarBlur cfg os g).1 !! w)
  ∧ is_Some (is_normal (RefreshHandles os g) !! w).
Proof.
  intros Hw. split; [| by rewrite RefreshHandles_eq].
  unfold SetTaskbarBlur. cbn. rewrite apply_all_requests. unfold blur_each.
  rewrite blur_memo.
  assert (is_normal (if 10 <=? counter g
                     then decision_pass cfg os (hwnd g) g
                     else set_counter g (uint8 (counter g + 1))) = is_normal g) as ->
    by (destruct (10 <=? counter g); [apply decision_pass_frame | done]).
  destruct (SetWindowCompositionAttribute_available os); [| done].
  by apply record_all_keeps.
Qed.

Lemma is_normal_never_shrinks_witness :
  is_Some (is_normal (SetTaskbarBlur all_enabled quiet_desktop
                        (poll all_enabled (first_cycle search_desktop)
                           [search_desktop])).1 !! 100)
  ∧ is_Some (is_normal (RefreshHandles quiet_desktop
                          (poll all_enabled (first_cycle search_desktop)
                             [search_desktop])) !! 100).
Proof.
  apply (is_normal_never_shrinks all_enabled quiet_desktop
           (poll all_enabled (first_cycle search_desktop) [search_desktop]) 100).
  vm_compute. by eexists.
Defined.
